(** * AndroidLine: a shallow embedding of [androidline.py]

    The script scaffolds an Android project: it creates a directory, clones a
    template into it, patches three literal placeholders of
    [app/build.gradle], makes sure the [gradlew] launcher is present and
    executable, and runs the debug build.

    The embedding follows the script function by function.  Python strings
    are [string]; the file system is a finite map from resolved paths (lists
    of names, from the root) to nodes, a file holding its text; the script's
    effects (printing, the file system, spawned processes, [sys.exit] and
    uncaught exceptions) are threaded through a small state-and-outcome
    monad.  What a spawned program does is not part of the script: it is a
    parameter of the development.  Access rights, symbolic links and
    character encodings are not modelled. *)

From Stdlib Require Import String Ascii List Arith ZArith Lia Bool.
From stdpp Require Import base option strings gmap.

Import ListNotations.
Local Open Scope string_scope.
Local Open Scope list_scope.

(** ** Python string operations used by the script *)

Module Str.

(** [take_prefix p s] is [Some r] when [s = p ++ r]: the test
    [s.startswith(p)] together with the remainder [s[len(p):]]. *)
Fixpoint take_prefix (p s : string) : option string :=
  match p with
  | EmptyString => Some s
  | String a p' =>
      match s with
      | EmptyString => None
      | String b s' => if Ascii.eqb a b then take_prefix p' s' else None
      end
  end.

Definition startswith (s p : string) : bool :=
  match take_prefix p s with Some _ => true | None => false end.

(** [t in s] of Python: [t] occurs in [s] as a contiguous substring. *)
Fixpoint str_in (t s : string) : bool :=
  startswith s t ||
  match s with
  | EmptyString => false
  | String _ s' => str_in t s'
  end.

(** [new.join(s)] surrounded by [new]: what [s.replace("", new)] yields. *)
Fixpoint interleave (new s : string) : string :=
  match s with
  | EmptyString => new
  | String c s' => new +:+ String c (interleave new s')
  end.

(** The scan of [str.replace] for a non-empty pattern: at each position,
    the leftmost occurrence is replaced and the scan resumes after it.
    [fuel] bounds the number of steps; [String.length s] is enough. *)
Fixpoint replace_scan (fuel : nat) (old new s : string) : string :=
  match fuel with
  | O => s
  | S fuel' =>
      match take_prefix old s with
      | Some rest => new +:+ replace_scan fuel' old new rest
      | None =>
          match s with
          | EmptyString => EmptyString
          | String c s' => String c (replace_scan fuel' old new s')
          end
      end
  end.

(** [s.replace(old, new)]: every non-overlapping occurrence, left to right. *)
Definition replace (s old new : string) : string :=
  match old with
  | EmptyString => interleave new s
  | String _ _ => replace_scan (String.length s) old new s
  end.

(** Characters removed by [str.strip()] (the ASCII white space of
    [str.isspace]: TAB, LF, VT, FF, CR, FS, GS, RS, US and the space). *)
Definition isspace (c : ascii) : bool :=
  let n := nat_of_ascii c in
  (((9 <=? n) && (n <=? 13)) || ((28 <=? n) && (n <=? 32)))%nat.

Fixpoint lstrip (s : string) : string :=
  match s with
  | EmptyString => EmptyString
  | String c s' => if isspace c then lstrip s' else s
  end.

Fixpoint rstrip (s : string) : string :=
  match s with
  | EmptyString => EmptyString
  | String c s' =>
      match rstrip s' with
      | EmptyString => if isspace c then EmptyString else String c EmptyString
      | r => String c r
      end
  end.

Definition strip (s : string) : string := rstrip (lstrip s).

Definition CR : ascii := ascii_of_nat 13.
Definition LF : ascii := ascii_of_nat 10.

(** What a file opened in text mode hands to [read()]: with the default
    [newline=None], the line endings CR LF and CR both arrive as LF. *)
Fixpoint universal_newlines (s : string) : string :=
  match s with
  | EmptyString => EmptyString
  | String c s' =>
      if Ascii.eqb c CR then
        match s' with
        | String c' s'' =>
            if Ascii.eqb c' LF then String LF (universal_newlines s'')
            else String LF (universal_newlines s')
        | EmptyString => String LF EmptyString
        end
      else String c (universal_newlines s')
  end.


End Str.

(** ** Paths and the file system *)

Module Path.

Definition sep : string := "/".

(** [a.endswith(sep)]. *)
Fixpoint endswith_sep (a : string) : bool :=
  match a with
  | EmptyString => false
  | String c EmptyString => Ascii.eqb c "/"
  | String _ a' => endswith_sep a'
  end.

(** [os.path.join(a, b)] of [posixpath]. *)
Definition join (a b : string) : string :=
  if Str.startswith b sep then b
  else if (String.eqb a "" || endswith_sep a)%bool then a +:+ b
  else a +:+ sep +:+ b.

(** Split a path at its separators; [acc] holds the characters of the
    component being read, last one first. *)
Fixpoint split_sep (acc : string) (s : string) : list string :=
  match s with
  | EmptyString => [String.rev acc]
  | String c s' =>
      if Ascii.eqb c "/" then String.rev acc :: split_sep "" s'
      else split_sep (String c acc) s'
  end.

(** One step of name resolution: empty components and [.] are skipped,
    [..] goes to the parent (the root is its own parent). *)
Definition enter (k : list string) (c : string) : list string :=
  if (String.eqb c "" || String.eqb c ".")%bool then k
  else if String.eqb c ".." then removelast k
  else (k ++ [c])%list.

Definition components (p : string) : list string :=
  fold_left enter (split_sep "" p) [].

(** The node a path names for a process whose working directory is
    [cwd]; the empty path names nothing ([ENOENT]). *)
Definition resolve (cwd p : string) : option (list string) :=
  if String.eqb p "" then None else Some (components (join cwd p)).

End Path.

Inductive node : Type :=
| File (content : string)
| Dir.

#[global] Instance node_eq_dec : EqDecision node.
Proof. solve_decision. Defined.

Inductive exn : Type :=
| FileNotFoundError
| FileExistsError
| NotADirectoryError
| IsADirectoryError.

(** How a Python computation ends: with a value, by [sys.exit(code)], or
    by an exception nobody catches. *)
Inductive outcome (A : Type) : Type :=
| Ret (a : A)
| Exit (code : Z)
| Raise (e : exn).
Arguments Ret {A} a.
Arguments Exit {A} code.
Arguments Raise {A} e.

(** What a call into the [os] module yields: a value, or an [OSError]. *)
Inductive result (A : Type) : Type :=
| Ok (a : A)
| Err (e : exn).
Arguments Ok {A} a.
Arguments Err {A} e.

Module FS.

(** The root directory always exists. *)
Definition stat (m : gmap (list string) node) (k : list string) : option node :=
  match k with
  | [] => Some Dir
  | _ => m !! k
  end.

Definition isdir (m : gmap (list string) node) (k : list string) : bool :=
  match stat m k with Some Dir => true | _ => false end.

Definition parent (k : list string) : list string := removelast k.

(** [os.mkdir]. *)
Definition mkdir (m : gmap (list string) node) (k : list string)
  : result (gmap (list string) node) :=
  match stat m k with
  | Some _ => Err FileExistsError
  | None =>
      match stat m (parent k) with
      | Some Dir => Ok (<[k := Dir]> m)
      | Some (File _) => Err NotADirectoryError
      | None => Err FileNotFoundError
      end
  end.

(** The last step of [os.makedirs]: [mkdir] of the leaf, where an error is
    forgiven only when [exist_ok] is set and the leaf is a directory. *)
Definition mkdir_leaf (m : gmap (list string) node) (k : list string)
    (exist_ok : bool) : result (gmap (list string) node) :=
  match mkdir m k with
  | Ok m' => Ok m'
  | Err e => if (exist_ok && isdir m k)%bool then Ok m else Err e
  end.

(** [os.makedirs(name, exist_ok=...)]: when the parent does not exist it
    is made first, by the same procedure (a [FileExistsError] from there is
    passed over), then the leaf.  [fuel] bounds the climb towards the root;
    the length of the path is enough. *)
Fixpoint makedirs_up (fuel : nat) (m : gmap (list string) node) (k : list string)
    (exist_ok : bool) : result (gmap (list string) node) :=
  match fuel, k with
  | S fuel', _ :: _ =>
      match stat m (parent k) with
      | Some _ => mkdir_leaf m k exist_ok
      | None =>
          match makedirs_up fuel' m (parent k) exist_ok with
          | Ok m' => mkdir_leaf m' k exist_ok
          | Err FileExistsError => mkdir_leaf m k exist_ok
          | Err e => Err e
          end
      end
  | _, _ => mkdir_leaf m k exist_ok
  end.

Definition makedirs (m : gmap (list string) node) (k : list string)
    (exist_ok : bool) : result (gmap (list string) node) :=
  makedirs_up (length k) m k exist_ok.


(** The content [open(path, 'r')] finds. *)
Definition read (m : gmap (list string) node) (k : list string) : result string :=
  match stat m k with
  | Some (File c) => Ok c
  | Some Dir => Err IsADirectoryError
  | None => Err FileNotFoundError
  end.

(** [open(path, 'w')] and a [write(content)]: the file is created or
    truncated, and holds [content]. *)
Definition write (m : gmap (list string) node) (k : list string) (content : string)
  : result (gmap (list string) node) :=
  match stat m k with
  | Some Dir => Err IsADirectoryError
  | Some (File _) => Ok (<[k := File content]> m)
  | None =>
      match stat m (parent k) with
      | Some Dir => Ok (<[k := File content]> m)
      | Some (File _) => Err NotADirectoryError
      | None => Err FileNotFoundError
      end
  end.

End FS.

(** ** The world the script runs in *)

(** One [subprocess.run(argv, cwd=...)]. *)
Record call : Type := Call {
  argv : list string;
  run_cwd : option string
}.

(** What [subprocess.run] hands back with both streams piped. *)
Record completed : Type := Completed {
  returncode : Z;
  stdout : string;
  stderr : string
}.

Record world : Type := World {
  cwd : string;                        (* os.getcwd() *)
  fs : gmap (list string) node;        (* the file system *)
  out : list string;                   (* lines printed, oldest first *)
  calls : list (call * option completed)
                                       (* processes spawned and what they
                                          returned, oldest first *)
}.

(** The programs of the host are not part of the script.  An [oracle] says,
    for a call and the file system it finds, whether the program could be
    started at all ([None]: [subprocess.run] raises) and otherwise what it
    returned and what it left on disk. *)
Definition oracle : Type :=
  call -> gmap (list string) node -> option (completed * gmap (list string) node).

Definition M (A : Type) : Type := world -> outcome A * world.

Definition ret {A : Type} (a : A) : M A := fun w => (Ret a, w).

Definition bind {A B : Type} (c : M A) (k : A -> M B) : M B :=
  fun w =>
    match c w with
    | (Ret a, w') => k a w'
    | (Exit n, w') => (Exit n, w')
    | (Raise e, w') => (Raise e, w')
    end.

Notation "'do' x <- c ;; k" := (bind c (fun x => k))
  (at level 10, x name, c at level 99, k at level 200).
Notation "'run' c ;; k" := (bind c (fun _ => k))
  (at level 10, c at level 99, k at level 200).

Definition sys_exit {A : Type} (code : Z) : M A := fun w => (Exit code, w).

Definition print (line : string) : M unit :=
  fun w => (Ret tt, World (cwd w) (fs w) (out w ++ [line]) (calls w)).

Definition getcwd : M string := fun w => (Ret (cwd w), w).

(** What a path names for a process working in [dir], if anything. *)
Definition node_at (dir : string) (m : gmap (list string) node) (p : string)
  : option node :=
  match Path.resolve dir p with
  | Some k => FS.stat m k
  | None => None
  end.

(** [os.path.exists(p)]. *)
Definition exists_at (dir : string) (m : gmap (list string) node) (p : string) : bool :=
  match node_at dir m p with Some _ => true | None => false end.

Definition path_exists (p : string) : M bool :=
  fun w => (Ret (exists_at (cwd w) (fs w) p), w).

(** Lift a file-system operation on a resolved path to the world; an
    [OSError] is not caught anywhere in the script. *)
Definition on_fs (p : string)
    (op : gmap (list string) node -> list string -> result (gmap (list string) node))
  : M unit :=
  fun w =>
    match Path.resolve (cwd w) p with
    | None => (Raise FileNotFoundError, w)
    | Some k =>
        match op (fs w) k with
        | Ok m => (Ret tt, World (cwd w) m (out w) (calls w))
        | Err e => (Raise e, w)
        end
    end.

Definition makedirs (p : string) (exist_ok : bool) : M unit :=
  on_fs p (fun m k => FS.makedirs m k exist_ok).

(** [with open(p, 'w') as f: f.write(content)].  In text mode every LF
    written becomes [os.linesep], which is LF on the POSIX hosts the script
    is written for ([ls], [chmod], [sh]). *)
Definition write_file (p content : string) : M unit :=
  on_fs p (fun m k => FS.write m k content).

(** [with open(p, 'r') as f: f.read()], in text mode. *)
Definition read_file (p : string) : M string :=
  fun w =>
    match Path.resolve (cwd w) p with
    | None => (Raise FileNotFoundError, w)
    | Some k =>
        match FS.read (fs w) k with
        | Ok content => (Ret (Str.universal_newlines content), w)
        | Err e => (Raise e, w)
        end
    end.

(** [subprocess.run(argv, stdout=PIPE, stderr=PIPE, cwd=dir)]; a program
    that cannot be started makes it raise. *)
Definition subprocess_run (sys : oracle) (args : list string) (dir : option string)
  : M completed :=
  fun w =>
    let c := Call args dir in
    match sys c (fs w) with
    | Some (r, m) => (Ret r, World (cwd w) m (out w) (calls w ++ [(c, Some r)]))
    | None =>
        (Raise FileNotFoundError,
         World (cwd w) (fs w) (out w) (calls w ++ [(c, None)]))
    end.

(** The status the interpreter exits with. *)
Definition exit_code {A : Type} (o : outcome A) : Z :=
  match o with
  | Ret _ => 0
  | Exit n => n
  | Raise _ => 1
  end.

(** ** [repr] of strings and lists, for the one f-string that prints [sys.argv] *)

Module Repr.

Definition hex_digit (n : nat) : ascii :=
  match n with
  | 0 => "0" | 1 => "1" | 2 => "2" | 3 => "3" | 4 => "4" | 5 => "5" | 6 => "6"
  | 7 => "7" | 8 => "8" | 9 => "9" | 10 => "a" | 11 => "b" | 12 => "c"
  | 13 => "d" | 14 => "e" | _ => "f"
  end%char.

Definition escape (quote c : ascii) : string :=
  let n := nat_of_ascii c in
  if (Ascii.eqb c "\" || Ascii.eqb c quote)%bool then String "\" (String c "")
  else if (n =? 9)%nat then "\t"
  else if (n =? 10)%nat then "\n"
  else if (n =? 13)%nat then "\r"
  else if ((n <? 32) || (n =? 127))%nat
       then String "\" (String "x" (String (hex_digit (n / 16)) (String (hex_digit (n mod 16)) "")))
  else String c "".

Fixpoint escape_all (quote : ascii) (s : string) : string :=
  match s with
  | EmptyString => EmptyString
  | String c s' => escape quote c +:+ escape_all quote s'
  end.

Definition dquote : ascii := ascii_of_nat 34.

(** [repr(s)]: single quotes, unless [s] has a single quote and no double one. *)
Definition repr_str (s : string) : string :=
  let q : ascii :=
    if (Str.str_in "'" s && negb (Str.str_in (String dquote "") s))%bool
    then dquote else "'"%char in
  String q (escape_all q s +:+ String q "").

Fixpoint repr_items (l : list string) : string :=
  match l with
  | [] => ""
  | [s] => repr_str s
  | s :: l' => repr_str s +:+ ", " +:+ repr_items l'
  end.

Definition repr_list (l : list string) : string := "[" +:+ repr_items l +:+ "]".

End Repr.

(** ** The script *)

Definition esc : string := String (ascii_of_nat 27) "".
Definition dq : string := String Repr.dquote "".

(** The [colors] dictionary of [print_colored]. *)
Definition colors : gmap string string :=
  <["green" := esc +:+ "[32m"]>
  (<["yellow" := esc +:+ "[33m"]>
  (<["red" := esc +:+ "[31m"]>
  (<["reset" := esc +:+ "[0m"]> ∅))).

(** [colors[key]] for a key that is there. *)
Definition colors_at (key : string) : string := default "" (colors !! key).

(** The line [print_colored(message, color)] prints. *)
Definition colored (message color : string) : string :=
  default (colors_at "reset") (colors !! color) +:+ message +:+ colors_at "reset".

Definition print_colored (message color : string) : M unit :=
  print (colored message color).

Definition placeholder_package : string := "com.example.app".
Definition placeholder_min : string := "minSdkVersion 21".
Definition placeholder_target : string := "targetSdkVersion 30".

(** The three substitutions of [customize_project], in the script's order. *)
Definition substitute (build_content package_name min_sdk target_sdk : string) : string :=
  let build_content := Str.replace build_content placeholder_package package_name in
  let build_content :=
    Str.replace build_content placeholder_min ("minSdkVersion " +:+ min_sdk) in
  Str.replace build_content placeholder_target ("targetSdkVersion " +:+ target_sdk).

(** The f-string of [create_default_build_gradle]. *)
Definition build_gradle_content (package_name min_sdk target_sdk : string) : string :=
  "
apply plugin: 'com.android.application'

android {
    compileSdkVersion 30
    defaultConfig {
        applicationId " +:+
  dq +:+
  package_name +:+
  dq +:+
  "
        minSdkVersion " +:+
  min_sdk +:+
  "
        targetSdkVersion " +:+
  target_sdk +:+
  "
        versionCode 1
        versionName " +:+
  dq +:+
  "1.0" +:+
  dq +:+
  "
    }
    buildTypes {
        release {
            minifyEnabled false
            proguardFiles getDefaultProguardFile('proguard-android-optimize.txt'), 'proguard-rules.pro'
        }
        debug {
            debuggable true
        }
    }
}

dependencies {
    implementation 'com.android.support:appcompat-v7:28.0.0'
}
".

Definition create_default_build_gradle
    (project_path package_name min_sdk target_sdk : string) : M unit :=
  let app_path := Path.join project_path "app" in
  do present <- path_exists app_path ;;
  run (if negb present then makedirs app_path false else ret tt) ;;
  write_file (Path.join app_path "build.gradle")
             (build_gradle_content package_name min_sdk target_sdk).

Definition customize_project
    (project_name package_name min_sdk target_sdk : string) : M unit :=
  do here <- getcwd ;;
  let project_path := Path.join here project_name in
  let build_gradle := Path.join (Path.join project_path "app") "build.gradle" in
  do present <- path_exists build_gradle ;;
  run (if negb present then
         run print_colored "Error: build.gradle is missing. Creating default build.gradle." "yellow" ;;
         create_default_build_gradle project_path package_name min_sdk target_sdk
       else ret tt) ;;
  do build_content <- read_file build_gradle ;;
  run write_file build_gradle (substitute build_content package_name min_sdk target_sdk) ;;
  print_colored ("Project " +:+ project_name +:+ " customized with package name " +:+
                 package_name +:+ ", minSdk " +:+ min_sdk +:+ ", targetSdk " +:+
                 target_sdk +:+ ".") "green".

Section Script.

Variable sys : oracle.

Definition clone_template (template_repo project_name : string) : M unit :=
  run print_colored ("Cloning template repository: " +:+ template_repo) "yellow" ;;
  do result <- subprocess_run sys ["git"; "clone"; template_repo; project_name] None ;;
  if negb (returncode result =? 0)%Z then
    run print_colored "Error: Failed to clone the repository." "red" ;;
    sys_exit 1
  else ret tt.

Definition ensure_gradlew (project_name : string) : M unit :=
  let gradlew_path := Path.join project_name "gradlew" in
  do present <- path_exists gradlew_path ;;
  run (if negb present then
         run print_colored "gradlew not found. Running 'gradle wrapper' to generate it..." "yellow" ;;
         do result <- subprocess_run sys ["gradle"; "wrapper"] (Some project_name) ;;
         if negb (returncode result =? 0)%Z then
           run print_colored "Error: Failed to generate gradle wrapper. Make sure Gradle is installed." "red" ;;
           sys_exit 1
         else ret tt
       else ret tt) ;;
  do present <- path_exists gradlew_path ;;
  if present then
    run print_colored "Checking permissions for gradlew..." "yellow" ;;
    do result <- subprocess_run sys ["ls"; "-l"; gradlew_path] None ;;
    if negb (returncode result =? 0)%Z then
      run print_colored "Error: Failed to check gradlew permissions." "red" ;;
      sys_exit 1
    else
      let permissions := Str.strip (stdout result) in
      if negb (Str.str_in "x" permissions) then
        run print_colored "gradlew does not have execute permissions. Attempting to set them..." "yellow" ;;
        do result <- subprocess_run sys ["chmod"; "+x"; gradlew_path] (Some project_name) ;;
        if negb (returncode result =? 0)%Z then
          run print_colored "Error: Failed to set executable permissions for gradlew. Please try setting permissions manually." "red" ;;
          sys_exit 1
        else ret tt
      else print_colored "gradlew already has executable permissions." "green"
  else
    run print_colored "gradlew not found even after running gradle wrapper. Please check the project directory." "red" ;;
    sys_exit 1.

(** The progress bar of [tqdm] is drawn on the standard error stream and
    decides nothing; it is left out. *)
Definition compile_project (project_name : string) : M unit :=
  do here <- getcwd ;;
  let project_path := Path.join here project_name in
  let gradlew_path := Path.join project_path "gradlew" in
  run ensure_gradlew project_name ;;
  run print_colored ("Compiling project " +:+ project_name +:+ " using gradlew...") "yellow" ;;
  do result <- subprocess_run sys ["sh"; gradlew_path; "assembleDebug"] (Some project_path) ;;
  if negb (returncode result =? 0)%Z then
    run print_colored "Error: Gradle build failed." "red" ;;
    run print_colored ("Gradle error output: " +:+ stderr result) "red" ;;
    sys_exit 1
  else
    run print_colored "Build successful!" "green" ;;
    let apk_path :=
      Path.join (Path.join (Path.join (Path.join (Path.join (Path.join
        project_path "app") "build") "outputs") "apk") "debug") "app-debug.apk" in
    do present <- path_exists apk_path ;;
    if present then print_colored ("APK successfully built: " +:+ apk_path) "green"
    else print_colored "Error: APK not found. Build might have failed." "red".

Definition template_repo : string :=
  "https://github.com/H4-Corp/android-template-for-al.git".

Definition usage : string :=
  "Usage: python androidline.py <project_name> <package_name> <min_sdk> <target_sdk>".

(** [main], with [sys.argv] as its argument. *)
Definition main (sys_argv : list string) : M unit :=
  if negb (length sys_argv =? 5)%nat then
    run print_colored usage "red" ;;
    sys_exit 1
  else
    let project_name := nth 1 sys_argv "" in
    let package_name := nth 2 sys_argv "" in
    let min_sdk := nth 3 sys_argv "" in
    let target_sdk := nth 4 sys_argv "" in
    run print_colored ("Arguments received: " +:+ Repr.repr_list sys_argv) "yellow" ;;
    run print_colored ("Creating project directory: " +:+ project_name) "yellow" ;;
    run makedirs project_name true ;;
    run clone_template template_repo project_name ;;
    run customize_project project_name package_name min_sdk target_sdk ;;
    compile_project project_name.

End Script.

(** ** Vocabulary of the statements *)

Module Overlap.

(** The non-empty suffixes of a string, longest first. *)
Fixpoint suffixes (s : string) : list string :=
  match s with
  | EmptyString => []
  | String _ s' => s :: suffixes s'
  end.

(** No non-empty suffix of [a] is a prefix of [b] or has [b] as a prefix. *)
Definition clear (a b : string) : bool :=
  forallb (fun a' => negb (Str.startswith b a') && negb (Str.startswith a' b))
          (suffixes a).

(** [a] and [b] cannot overlap in any text: neither occurs in the other and
    no non-empty end of one is a beginning of the other. *)
Definition overlap_free (a b : string) : bool := clear a b && clear b a.

End Overlap.

(** [<project>/app/build.gradle], as [customize_project] spells it. *)
Definition descriptor_path (dir project_name : string) : string :=
  Path.join (Path.join (Path.join dir project_name) "app") "build.gradle".

Definition descriptor (w : world) (project_name : string) : option node :=
  node_at (cwd w) (fs w) (descriptor_path (cwd w) project_name).


(** The three placeholders and the three texts that replace them. *)
Definition placeholders : list string :=
  [placeholder_package; placeholder_min; placeholder_target].

Definition replacements (package_name min_sdk target_sdk : string) : list string :=
  [package_name; "minSdkVersion " +:+ min_sdk; "targetSdkVersion " +:+ target_sdk].

(** No placeholder can overlap any of the replacement texts. *)
Definition no_overlap (package_name min_sdk target_sdk : string) : bool :=
  forallb (fun ph =>
             forallb (Overlap.overlap_free ph)
                     (replacements package_name min_sdk target_sdk))
          placeholders.

Definition wrapper_call (project_name : string) : call :=
  Call ["gradle"; "wrapper"] (Some project_name).
Definition ls_call (project_name : string) : call :=
  Call ["ls"; "-l"; Path.join project_name "gradlew"] None.
Definition chmod_call (project_name : string) : call :=
  Call ["chmod"; "+x"; Path.join project_name "gradlew"] (Some project_name).

Definition gradlew_of (project_name : string) : string :=
  Path.join project_name "gradlew".

(** The call that runs the build launcher. *)
Definition is_build (c : call) : bool :=
  match argv c with
  | [prog; _; task] => (String.eqb prog "sh" && String.eqb task "assembleDebug")%bool
  | _ => false
  end.

(** [<project>/app/build/outputs/apk/debug/app-debug.apk], as
    [compile_project] spells it. *)
Definition apk_path (dir project_name : string) : string :=
  Path.join (Path.join (Path.join (Path.join (Path.join (Path.join
    (Path.join dir project_name) "app") "build") "outputs") "apk") "debug")
    "app-debug.apk".

(** A name that [join] appends as one more component. *)
Definition plain (c : string) : Prop :=
  Str.startswith c Path.sep = false /\ Path.split_sep "" c = [c] /\ forall k, Path.enter k c = k ++ [c].

(** [<project>/app], as [create_default_build_gradle] spells it. *)
Definition app_path (dir project_name : string) : string :=
  Path.join (Path.join dir project_name) "app".





(** No build launcher has been spawned yet. *)
Definition before_build (w : world) : Prop :=
  Forall (fun e : call * option completed => is_build (fst e) = false) (calls w).

(** A computation that stays in the working directory and does not spawn
    the build launcher. *)
Definition pre_build {A : Type} (c : M A) : Prop :=
  forall w o w', c w = (o, w') ->
    cwd w' = cwd w /\ (before_build w -> before_build w').

Definition wrapper_line : string :=
  colored "gradlew not found. Running 'gradle wrapper' to generate it..." "yellow".
Definition launcher_missing_line : string :=
  colored "gradlew not found even after running gradle wrapper. Please check the project directory." "red".
Definition already_executable_line : string :=
  colored "gradlew already has executable permissions." "green".

Definition apk_missing_line : string :=
  colored "Error: APK not found. Build might have failed." "red".

(** ** A sample host

    A working directory [/work], and programs that behave: [git clone]
    unpacks a template with a descriptor and a launcher, [ls -l] prints one
    line in the usual format, every other program returns 0 and leaves the
    disk alone (so the build produces no package). *)

Definition nl : string := String (ascii_of_nat 10) "".

Definition template_descriptor : string :=
  "android {" +:+ nl +:+
  "    defaultConfig {" +:+ nl +:+
  "        applicationId " +:+ dq +:+ "com.example.app" +:+ dq +:+ nl +:+
  "        minSdkVersion 21" +:+ nl +:+
  "        targetSdkVersion 30" +:+ nl +:+
  "    }" +:+ nl +:+
  "}" +:+ nl.

Definition work : string := "/work".

Definition key_of (p : string) : list string := Path.components (Path.join work p).

(** The template, unpacked in [project_name]. *)
Definition unpack (project_name : string) (m : gmap (list string) node)
  : gmap (list string) node :=
  <[key_of project_name ++ ["app"; "build.gradle"] := File template_descriptor]>
  (<[key_of project_name ++ ["app"] := Dir]>
  (<[key_of project_name ++ ["gradlew"] := File "#!/bin/sh"]>
  (<[key_of project_name := Dir]> m))).

(** The line [ls -l path] prints for a file of the given mode. *)
Definition listing (mode path : string) : string :=
  mode +:+ " 1 dev dev 8070 Jan  1 10:00 " +:+ path +:+ nl.

Definition done_ok : completed := Completed 0 "" "".

(** [mode] is the mode field [ls -l] shows for the launcher. *)
Definition host (mode : string) : oracle :=
  fun c m =>
    match argv c with
    | ["git"; "clone"; _; project_name] => Some (done_ok, unpack project_name m)
    | ["ls"; "-l"; path] => Some (Completed 0 (listing mode path) "", m)
    | _ => Some (done_ok, m)
    end.

Definition empty_work : world :=
  World work (<[ ["work"] := Dir ]> ∅) [] [].

(** The world after a clone into [project_name]. *)
Definition cloned (project_name : string) : world :=
  World work (unpack project_name (<[ ["work"] := Dir ]> ∅)) [] [].

(** The same, with the launcher missing. *)
Definition cloned_without_launcher (project_name : string) : world :=
  World work (delete (key_of project_name ++ ["gradlew"])
                     (unpack project_name (<[ ["work"] := Dir ]> ∅))) [] [].

(** A project whose [app] is a regular file. *)
Definition app_is_a_file : world :=
  World work (<[ ["work"; "MyApp"; "app"] := File "" ]>
             (<[ ["work"; "MyApp"] := Dir ]>
             (<[ ["work"] := Dir ]> ∅))) [] [].

(** A project directory with nothing in it. *)
Definition bare_project : world :=
  World work (<[ ["work"; "MyApp"] := Dir ]> (<[ ["work"] := Dir ]> ∅)) [] [].





Definition sample_argv : list string :=
  ["androidline.py"; "MyApp"; "com.test.app"; "23"; "33"].


(** ** More vocabulary *)

(** The program a call runs. *)
Definition prog (e : call * option completed) : string := hd "" (argv (fst e)).

(** A computation that stays in the working directory, spawns programs
    among [l] only, in the order of [l] and each at most once, and calls
    [sys.exit] with status 1 only. *)
Definition spawns {A : Type} (l : list string) (c : M A) : Prop :=
  forall w o w', c w = (o, w') ->
    cwd w' = cwd w /\
    (exists new, calls w' = calls w ++ new /\ sublist (map prog new) l) /\
    (forall n, o = Exit n -> n = 1%Z).

(** The programs of the script, in the order of its stages. *)
Definition stages : list string := ["git"; "gradle"; "ls"; "chmod"; "sh"].

Definition build_failed_line : string := colored "Error: Gradle build failed." "red".
Definition build_error_line (r : completed) : string :=
  colored ("Gradle error output: " +:+ stderr r) "red".
Definition build_ok_line : string := colored "Build successful!" "green".
Definition apk_built_line (dir project_name : string) : string :=
  colored ("APK successfully built: " +:+ apk_path dir project_name) "green".

(** The sample host with a build of its own: it returns [rc], writes [err]
    on its error stream and, when [apk] is set, leaves a package. *)
Definition with_apk (project_name : string) (m : gmap (list string) node)
  : gmap (list string) node :=
  <[key_of project_name ++ ["app"; "build"; "outputs"; "apk"; "debug"; "app-debug.apk"]
      := File "PK"]>
  (<[key_of project_name ++ ["app"; "build"; "outputs"; "apk"; "debug"] := Dir]>
  (<[key_of project_name ++ ["app"; "build"; "outputs"; "apk"] := Dir]>
  (<[key_of project_name ++ ["app"; "build"; "outputs"] := Dir]>
  (<[key_of project_name ++ ["app"; "build"] := Dir]> m)))).

Definition host_build (rc : Z) (err : string) (apk : bool) : oracle :=
  fun c m =>
    match argv c with
    | ["sh"; _; "assembleDebug"] =>
        Some (Completed rc "" err, if apk then with_apk "MyApp" m else m)
    | _ => host "-rwxr-xr-x" c m
    end.





(** The call that runs the build launcher, as [compile_project] makes it. *)
Definition build_call (dir project_name : string) : call :=
  Call ["sh"; Path.join (Path.join dir project_name) "gradlew"; "assembleDebug"]
       (Some (Path.join dir project_name)).

(** A second project name, with an [x] in it. *)
Definition xapp_argv : list string :=
  ["androidline.py"; "xapp"; "com.test.app"; "23"; "33"].

(** A sample host whose [gradle wrapper] writes the launcher. *)
Definition host_wrapping : oracle :=
  fun c m =>
    match argv c with
    | ["gradle"; "wrapper"] =>
        Some (done_ok, <[key_of "MyApp" ++ ["gradlew"] := File "#!/bin/sh"]> m)
    | _ => host "-rwxr-xr-x" c m
    end.

(** * Properties *)

(** ** Strings *)

Module StrFacts.
Import Str.

Lemma app_cons c s t : String c s +:+ t = String c (s +:+ t).
Proof. reflexivity. Qed.

Lemma app_empty_l t : "" +:+ t = t.
Proof. reflexivity. Qed.

Lemma app_empty_r s : s +:+ "" = s.
Proof. induction s as [|c s IH]; [reflexivity|]. rewrite app_cons, IH. reflexivity. Qed.

Lemma app_assoc a b c : (a +:+ b) +:+ c = a +:+ (b +:+ c).
Proof. induction a as [|x a IH]; [reflexivity|]. rewrite !app_cons, IH. reflexivity. Qed.

Lemma length_app a b : String.length (a +:+ b) = String.length a + String.length b.
Proof. induction a as [|x a IH]; [reflexivity|]. rewrite app_cons. simpl. lia. Qed.

Lemma take_prefix_Some p s r : take_prefix p s = Some r <-> s = p +:+ r.
Proof.
  revert s. induction p as [|a p IH]; intros s; simpl.
  - rewrite app_empty_l. split; congruence.
  - rewrite app_cons. destruct s as [|b s]; [split; discriminate|].
    destruct (Ascii.eqb_spec a b) as [->|Hab].
    + rewrite IH. split; congruence.
    + split; [discriminate|]. intros [= ? ?]. congruence.
Qed.

Lemma take_prefix_app p r : take_prefix p (p +:+ r) = Some r.
Proof. apply take_prefix_Some. reflexivity. Qed.

Lemma startswith_true s p : startswith s p = true <-> exists r, s = p +:+ r.
Proof.
  unfold startswith. destruct (take_prefix p s) as [r|] eqn:E.
  - apply take_prefix_Some in E. split; eauto.
  - split; [discriminate|]. intros [r Hr]. apply take_prefix_Some in Hr. congruence.
Qed.

Lemma startswith_app p r : startswith (p +:+ r) p = true.
Proof. apply startswith_true. eauto. Qed.

Lemma startswith_empty s : startswith s "" = true.
Proof. reflexivity. Qed.

Lemma startswith_cons c s d p :
  startswith (String c s) (String d p) = Ascii.eqb d c && startswith s p.
Proof. unfold startswith. simpl. destruct (Ascii.eqb d c); reflexivity. Qed.

(** Two prefixes of one string: one is a prefix of the other. *)
Lemma startswith_app_inv a b t :
  startswith (a +:+ b) t = true ->
  startswith a t = true \/ exists t2, t = a +:+ t2 /\ startswith b t2 = true.
Proof.
  revert t. induction a as [|c a IH]; intros t H.
  - right. exists t. auto.
  - destruct t as [|d t]; [left; reflexivity|].
    rewrite app_cons, startswith_cons in H. apply andb_true_iff in H as [Hc Ht].
    apply Ascii.eqb_eq in Hc as ->.
    destruct (IH _ Ht) as [Hl|(t2 & -> & Hr)].
    + left. rewrite startswith_cons, Ascii.eqb_refl. exact Hl.
    + right. exists t2. rewrite app_cons. auto.
Qed.

Lemma str_in_cons t c s :
  str_in t (String c s) = startswith (String c s) t || str_in t s.
Proof. reflexivity. Qed.

Lemma str_in_app_r t a b : str_in t b = true -> str_in t (a +:+ b) = true.
Proof.
  intros H. induction a as [|c a IH]; [exact H|].
  rewrite app_cons, str_in_cons, IH. apply orb_true_r.
Qed.

Lemma str_in_startswith t s : startswith s t = true -> str_in t s = true.
Proof. intros H. destruct s; simpl; rewrite H; reflexivity. Qed.


(** ** The equations of the scan *)

Section Scan.
Variables (a : ascii) (o new : string).
Local Abbreviation old := (String a o).

Lemma take_prefix_shorter s rest :
  take_prefix old s = Some rest -> String.length rest < String.length s.
Proof.
  intros H%take_prefix_Some. subst s. rewrite app_cons. simpl.
  rewrite length_app. lia.
Qed.

Lemma replace_scan_fuel n m s :
  String.length s <= n -> String.length s <= m ->
  replace_scan n old new s = replace_scan m old new s.
Proof.
  revert m s. induction n as [|n IH]; intros m s Hn Hm.
  - destruct s; [|simpl in Hn; lia]. destruct m; reflexivity.
  - destruct m as [|m].
    + destruct s; [|simpl in Hm; lia]. reflexivity.
    + cbn [replace_scan]. destruct (take_prefix old s) as [rest|] eqn:E.
      * apply take_prefix_shorter in E. f_equal. apply IH; lia.
      * destruct s as [|c s]; [reflexivity|]. simpl in Hn, Hm. f_equal. apply IH; lia.
Qed.

Lemma replace_empty : replace "" old new = "".
Proof. reflexivity. Qed.

Lemma replace_hit rest : replace (old +:+ rest) old new = new +:+ replace rest old new.
Proof.
  unfold replace. rewrite app_cons. simpl String.length.
  cbn [replace_scan].
  change (String a (o +:+ rest)) with (old +:+ rest).
  rewrite take_prefix_app. f_equal.
  apply replace_scan_fuel; [rewrite length_app|]; lia.
Qed.

Lemma replace_miss c s :
  startswith (String c s) old = false ->
  replace (String c s) old new = String c (replace s old new).
Proof.
  unfold replace, startswith. simpl String.length. cbn [replace_scan].
  destruct (take_prefix old (String c s)); [discriminate|]. reflexivity.
Qed.

(** Induction along the scan. *)
Lemma scan_ind (P : string -> Prop) :
  P "" ->
  (forall rest, P rest -> P (old +:+ rest)) ->
  (forall c s, startswith (String c s) old = false -> P s -> P (String c s)) ->
  forall s, P s.
Proof.
  intros H0 Hhit Hmiss s.
  remember (String.length s) as n eqn:Hn.
  revert s Hn. induction n as [n IH] using lt_wf_ind. intros s Hn.
  destruct (take_prefix old s) as [rest|] eqn:E.
  - pose proof (take_prefix_shorter _ _ E). apply take_prefix_Some in E. subst s.
    apply Hhit. eapply IH; [|reflexivity]. lia.
  - destruct s as [|c s]; [exact H0|]. apply Hmiss.
    + unfold startswith. rewrite E. reflexivity.
    + eapply IH; [|reflexivity]. simpl in Hn. lia.
Qed.

(** A pattern that does not occur is left alone. *)
Lemma replace_absent s : str_in old s = false -> replace s old new = s.
Proof.
  induction s as [|rest IH|c s Hc IH] using scan_ind; intros H.
  - reflexivity.
  - rewrite (str_in_startswith _ _ (startswith_app old rest)) in H. discriminate.
  - rewrite str_in_cons in H. apply orb_false_iff in H as [_ H].
    rewrite (replace_miss _ _ Hc), (IH H). reflexivity.
Qed.


End Scan.


(** ** Texts that cannot overlap *)

Import Overlap.

Lemma clear_cons d t b :
  clear (String d t) b = true ->
  startswith b (String d t) = false /\ startswith (String d t) b = false /\
  clear t b = true.
Proof.
  unfold clear. cbn [suffixes forallb].
  intros [[H1 H2]%andb_true_iff H3]%andb_true_iff.
  apply negb_true_iff in H1, H2. auto.
Qed.

Lemma clear_suffix a b a' :
  clear a b = true -> In a' (suffixes a) ->
  startswith b a' = false /\ startswith a' b = false.
Proof.
  unfold clear. rewrite forallb_forall. intros H Hin.
  apply H in Hin. apply andb_true_iff in Hin as [H1 H2].
  apply negb_true_iff in H1, H2. auto.
Qed.

(** A text starting with [a ++ b] that also starts with [t]: [t] and a
    non-empty [a] overlap. *)
Lemma startswith_app_clear a b t :
  a <> "" -> t <> "" -> clear t a = true -> startswith (a +:+ b) t = false.
Proof.
  intros Ha Ht Hcl. destruct (startswith (a +:+ b) t) eqn:E; [|reflexivity].
  destruct t as [|d t]; [congruence|].
  destruct (clear_cons _ _ _ Hcl) as (H1 & H2 & _).
  apply startswith_app_inv in E as [E|(t2 & E & _)].
  - congruence.
  - rewrite E, startswith_app in H2. discriminate.
Qed.

Lemma str_in_app_inv t a b :
  str_in t (a +:+ b) = true ->
  (exists a', In a' (suffixes a) /\ startswith (a' +:+ b) t = true) \/
  str_in t b = true.
Proof.
  induction a as [|c a IH]; intros H; [right; exact H|].
  rewrite app_cons, str_in_cons in H. apply orb_true_iff in H as [H|H].
  - left. exists (String c a). split; [left; reflexivity|exact H].
  - destruct (IH H) as [(a' & Hin & Ha')|Hb]; [left|right; exact Hb].
    exists a'. split; [right; exact Hin|exact Ha'].
Qed.

(** An occurrence of [t] in [a ++ b], when [t] and [a] cannot overlap,
    lies in [b]. *)
Lemma str_in_app_clear t a b :
  t <> "" -> clear a t = true ->
  str_in t (a +:+ b) = true -> str_in t b = true.
Proof.
  intros Ht Hcl H. apply str_in_app_inv in H as [(a' & Hin & Ha')|H]; [|exact H].
  destruct (clear_suffix _ _ _ Hcl Hin) as [H1 H2].
  apply startswith_app_inv in Ha' as [E|(t2 & E & _)].
  - congruence.
  - rewrite E, startswith_app in H1. discriminate.
Qed.

Section Overlaps.
Variables (a : ascii) (o new : string).
Local Abbreviation old := (String a o).

(** A prefix of the result that cannot overlap the replacement was a
    prefix of the input. *)
Lemma startswith_replace_inv t s :
  clear t new = true -> t <> "" ->
  startswith (replace s old new) t = true -> startswith s t = true.
Proof.
  revert t. induction s as [|rest IH|c s Hc IH] using (scan_ind a o); intros t Hcl Ht H.
  - exact H.
  - rewrite replace_hit in H.
    destruct new as [|n0 new0] eqn:En.
    + destruct t as [|d t]; [congruence|].
      destruct (clear_cons _ _ _ Hcl) as (_ & H2 & _). discriminate.
    + rewrite startswith_app_clear in H; [discriminate|discriminate|exact Ht|exact Hcl].
  - rewrite (replace_miss _ _ _ _ _ Hc) in H. destruct t as [|d t]; [congruence|].
    rewrite startswith_cons in *. apply andb_true_iff in H as [Hd H].
    rewrite Hd. simpl. destruct t as [|e t]; [reflexivity|].
    apply IH; [|discriminate|exact H].
    apply (clear_cons _ _ _ Hcl).
Qed.

(** The replacement creates no occurrence of a text it cannot overlap. *)
Lemma str_in_replace_inv t s :
  overlap_free t new = true -> t <> "" ->
  str_in t (replace s old new) = true -> str_in t s = true.
Proof.
  unfold overlap_free. intros [Htn Hnt]%andb_true_iff Ht.
  induction s as [|rest IH|c s Hc IH] using (scan_ind a o); intros H.
  - exact H.
  - rewrite replace_hit in H.
    apply str_in_app_r, IH. eapply str_in_app_clear; eauto.
  - pose proof H as H'. rewrite (replace_miss _ _ _ _ _ Hc), str_in_cons in H.
    apply orb_true_iff in H as [H|H].
    + rewrite <- (replace_miss _ _ _ _ _ Hc) in H.
      apply str_in_startswith. eapply startswith_replace_inv; eauto.
    + rewrite str_in_cons, (IH H). apply orb_true_r.
Qed.

(** After the replacement the pattern is gone, when it cannot overlap
    what replaces it. *)
Lemma str_in_replace_old s :
  overlap_free old new = true -> str_in old (replace s old new) = false.
Proof.
  unfold overlap_free. intros [Hon Hno]%andb_true_iff.
  induction s as [|rest IH|c s Hc IH] using (scan_ind a o).
  - reflexivity.
  - rewrite replace_hit.
    destruct (str_in old (new +:+ replace rest old new)) eqn:E; [|reflexivity].
    apply str_in_app_clear in E; [congruence|discriminate|exact Hno].
  - destruct (str_in old (replace (String c s) old new)) eqn:E; [|reflexivity].
    rewrite (replace_miss _ _ _ _ _ Hc), str_in_cons in E.
    apply orb_true_iff in E as [E|E]; [|congruence].
    rewrite <- (replace_miss _ _ _ _ _ Hc) in E.
    apply startswith_replace_inv in E; [congruence|exact Hon|discriminate].
Qed.



End Overlaps.

(** ** Line endings *)




End StrFacts.

(** ** The file system *)

Lemma stat_insert_eq (m : gmap (list string) node) k n :
  k <> [] -> FS.stat (<[k := n]> m) k = Some n.
Proof. intros Hk. destruct k; [congruence|]. simpl. apply lookup_insert_eq. Qed.

Lemma stat_file_nonroot (m : gmap (list string) node) k c :
  FS.stat m k = Some (File c) -> k <> [].
Proof. intros H ->. discriminate. Qed.


(** ** [customize_project] on a descriptor that is there *)


Lemma substitute_absent c package_name min_sdk target_sdk :
  Str.str_in placeholder_package c = false ->
  Str.str_in placeholder_min c = false ->
  Str.str_in placeholder_target c = false ->
  substitute c package_name min_sdk target_sdk = c.
Proof.
  intros H1 H2 H3. unfold substitute.
  unfold placeholder_package, placeholder_min, placeholder_target in *.
  rewrite (StrFacts.replace_absent _ _ _ _ H1).
  rewrite (StrFacts.replace_absent _ _ _ _ H2).
  apply (StrFacts.replace_absent _ _ _ _ H3).
Qed.



Lemma no_overlap_inv package_name min_sdk target_sdk ph n :
  no_overlap package_name min_sdk target_sdk = true ->
  In ph placeholders -> In n (replacements package_name min_sdk target_sdk) ->
  Overlap.overlap_free ph n = true.
Proof.
  unfold no_overlap. rewrite forallb_forall. intros H Hph Hn.
  specialize (H _ Hph). rewrite forallb_forall in H. exact (H _ Hn).
Qed.




(** ** [main]: the argument count *)


(** ** Directory creation *)




(** ** [ensure_gradlew] *)

(** Unfold one stage of the script down to the oracle and the file system. *)
Ltac unfold_stage :=
  unfold ensure_gradlew, clone_template, compile_project, bind, getcwd, path_exists,
    subprocess_run, print_colored, print, ret, sys_exit;
  cbn [cwd fs out calls negb].

(** Split on the first test or oracle answer a run in [H] depends on. *)
Ltac split_run H :=
  match type of H with
  | context [match ?x with _ => _ end] =>
      lazymatch x with
      | context [match _ with _ => _ end] => fail
      | _ =>
          let E := fresh "E" in
          destruct x eqn:E;
          cbn [cwd fs out calls negb returncode stdout stderr] in H
      end
  end.

(** C10.  When the launcher is absent, [gradle wrapper] returns 0 and the
    launcher is still absent from what it leaves on disk, [ensure_gradlew]
    reports the error and exits with status 1; the wrapper is the only
    process it has spawned: nothing inspects or grants a permission. *)
Theorem C10_wrapper_leaves_no_launcher sys project_name w r m' :
  exists_at (cwd w) (fs w) (gradlew_of project_name) = false ->
  sys (wrapper_call project_name) (fs w) = Some (r, m') ->
  returncode r = 0%Z ->
  exists_at (cwd w) m' (gradlew_of project_name) = false ->
  ensure_gradlew sys project_name w =
    (Exit 1,
     World (cwd w) m'
           (out w ++ [wrapper_line; launcher_missing_line])
           (calls w ++ [(wrapper_call project_name, Some r)])).
Proof.
  unfold gradlew_of, wrapper_call. intros H0 Hsys Hr H1.
  unfold_stage. rewrite H0. cbn [cwd fs out calls negb].
  rewrite Hsys, Hr. cbn [cwd fs out calls negb Z.eqb].
  rewrite H1. cbn [cwd fs out calls]. rewrite <- app_assoc. reflexivity.
Qed.

(** C7.  When the launcher is absent at the start, the first process
    [ensure_gradlew] spawns is [gradle wrapper]; when that cannot be
    started or returns a non-zero status, no other process follows and the
    run ends with a non-zero exit status. *)
Theorem C7_wrapper_before_permissions sys project_name w o w' :
  exists_at (cwd w) (fs w) (gradlew_of project_name) = false ->
  ensure_gradlew sys project_name w = (o, w') ->
  exists res rest,
    calls w' = (calls w ++ (wrapper_call project_name, res) :: rest)%list /\
    ((forall r, res = Some r -> returncode r <> 0%Z) ->
     rest = [] /\ o <> Ret tt /\ exit_code o = 1%Z).
Proof.
  unfold gradlew_of, wrapper_call. intros H0 H. revert H.
  unfold_stage. rewrite H0. cbn [cwd fs out calls negb]. intros H.
  repeat split_run H;
    injection H as <- <-; cbn [calls]; rewrite <- ?app_assoc; cbn [app];
    eexists _, _; (split; [reflexivity|]); intros Hf;
    first
      [ solve [repeat split; first [reflexivity | discriminate]]
      | exfalso; eapply Hf; [reflexivity|];
        match goal with E : negb (_ =? 0)%Z = false |- _ =>
          apply negb_false_iff, Z.eqb_eq in E; exact E end ].
Qed.


(** C2 (the code departs from the claim).  On a host where [ls -l] shows
    the launcher with mode [-rw-r--r--], a project named [xapp] gets no
    [chmod]: the [x] of the path in the listing passes for a permission
    bit, [ls] is the only process spawned, the launcher is reported as
    executable and [ensure_gradlew] returns.  The same host and launcher
    under the name [MyApp] do get their one [chmod +x]. *)
Theorem C2_project_name_with_x_skips_chmod :
  exists_at work (fs (cloned "xapp")) (gradlew_of "xapp") = true /\
  fst (ensure_gradlew (host "-rw-r--r--") "xapp" (cloned "xapp")) = Ret tt /\
  calls (snd (ensure_gradlew (host "-rw-r--r--") "xapp" (cloned "xapp"))) =
    [(ls_call "xapp", Some (Completed 0 (listing "-rw-r--r--" "xapp/gradlew") ""))] /\
  out (snd (ensure_gradlew (host "-rw-r--r--") "xapp" (cloned "xapp"))) =
    [colored "Checking permissions for gradlew..." "yellow"; already_executable_line] /\
  calls (snd (ensure_gradlew (host "-rw-r--r--") "MyApp" (cloned "MyApp"))) =
    [(ls_call "MyApp", Some (Completed 0 (listing "-rw-r--r--" "MyApp/gradlew") ""));
     (chmod_call "MyApp", Some done_ok)].
Proof. repeat split; vm_compute; reflexivity. Qed.

(** ** Which stages can spawn the build launcher *)

Lemma pre_build_ret {A} (a : A) : pre_build (ret a).
Proof. intros w o w' [= <- <-]. auto. Qed.

Lemma pre_build_exit {A} n : pre_build (@sys_exit A n).
Proof. intros w o w' [= <- <-]. auto. Qed.

Lemma pre_build_print line : pre_build (print line).
Proof. intros w o w' [= <- <-]. auto. Qed.

Lemma pre_build_print_colored message color : pre_build (print_colored message color).
Proof. apply pre_build_print. Qed.

Lemma pre_build_getcwd : pre_build getcwd.
Proof. intros w o w' [= <- <-]. auto. Qed.

Lemma pre_build_path_exists p : pre_build (path_exists p).
Proof. intros w o w' [= <- <-]. auto. Qed.

Lemma pre_build_on_fs p op : pre_build (on_fs p op).
Proof.
  intros w o w'. unfold on_fs.
  destruct (Path.resolve (cwd w) p) as [k|]; [destruct (op (fs w) k)|];
    intros [= <- <-]; auto.
Qed.

Lemma pre_build_read_file p : pre_build (read_file p).
Proof.
  intros w o w'. unfold read_file.
  destruct (Path.resolve (cwd w) p) as [k|]; [destruct (FS.read (fs w) k)|];
    intros [= <- <-]; auto.
Qed.

Lemma pre_build_bind {A B} (c : M A) (k : A -> M B) :
  pre_build c -> (forall a, pre_build (k a)) -> pre_build (bind c k).
Proof.
  intros Hc Hk w o w'. unfold bind.
  destruct (c w) as [o1 w1] eqn:E. intros H.
  destruct (Hc _ _ _ E) as [Hcwd Hw1].
  destruct o1 as [a|n|e].
  - destruct (Hk a _ _ _ H) as [Hcwd' Hw']. split; [congruence|auto].
  - injection H as <- <-. auto.
  - injection H as <- <-. auto.
Qed.

Lemma pre_build_subprocess_run sys args dir :
  is_build (Call args dir) = false -> pre_build (subprocess_run sys args dir).
Proof.
  intros Hb w o w'. unfold subprocess_run, before_build.
  destruct (sys (Call args dir) (fs w)) as [[r m]|]; intros [= <- <-];
    cbn [calls cwd]; (split; [reflexivity|]); intros H;
    apply Forall_app; (split; [exact H|]);
    constructor; [exact Hb|constructor|exact Hb|constructor].
Qed.

Ltac pre_build_tac :=
  repeat first
    [ apply pre_build_bind; [|intros ?]
    | apply pre_build_ret
    | apply pre_build_exit
    | apply pre_build_print_colored
    | apply pre_build_getcwd
    | apply pre_build_path_exists
    | apply pre_build_on_fs
    | apply pre_build_read_file
    | apply pre_build_subprocess_run; reflexivity
    | match goal with |- pre_build (if ?b then _ else _) => destruct b end ].

Lemma pre_build_makedirs p exist_ok : pre_build (makedirs p exist_ok).
Proof. apply pre_build_on_fs. Qed.

Lemma pre_build_clone_template sys repo project_name :
  pre_build (clone_template sys repo project_name).
Proof. unfold clone_template. pre_build_tac. Qed.

Lemma pre_build_customize_project project_name package_name min_sdk target_sdk :
  pre_build (customize_project project_name package_name min_sdk target_sdk).
Proof.
  unfold customize_project, create_default_build_gradle, makedirs, write_file.
  pre_build_tac.
Qed.

Lemma pre_build_ensure_gradlew sys project_name :
  pre_build (ensure_gradlew sys project_name).
Proof. unfold ensure_gradlew. pre_build_tac. Qed.

Lemma before_build_last w c r :
  before_build w -> last (calls w) = Some (c, r) -> is_build c = false.
Proof.
  unfold before_build. intros H Hl.
  apply last_Some in Hl as [l' Hl]. rewrite Hl in H.
  apply Forall_app in H as [_ H]. inversion H; subst. assumption.
Qed.

(** ** The build stage *)

Lemma last_snoc_calls (l : list (call * option completed)) x : last (l ++ [x]) = Some x.
Proof. apply last_snoc. Qed.

(** What [compile_project] does once [ensure_gradlew] has returned. *)
Lemma compile_project_build sys project_name w o w' c r :
  before_build w ->
  compile_project sys project_name w = (o, w') ->
  last (calls w') = Some (c, Some r) ->
  is_build c = true ->
  returncode r = 0%Z ->
  exists_at (cwd w') (fs w') (apk_path (cwd w') project_name) = false ->
  o = Ret tt /\ last (out w') = Some apk_missing_line.
Proof.
  intros Hw H Hlast Hb Hr Hapk. revert H.
  unfold compile_project, bind, getcwd.
  destruct (ensure_gradlew sys project_name w) as [o1 w1] eqn:E1.
  destruct (pre_build_ensure_gradlew _ _ _ _ _ E1) as [Hcwd Hw1].
  specialize (Hw1 Hw).
  destruct o1 as [[]|n|e].
  2,3: intros [= <- <-]; rewrite (before_build_last _ _ _ Hw1 Hlast) in Hb; discriminate.
  unfold subprocess_run, print_colored, print, sys_exit, path_exists.
  cbn [cwd fs out calls]. rewrite <- Hcwd. intros H.
  repeat split_run H; injection H as <- <-; cbn [cwd fs out calls] in *;
    rewrite ?last_snoc_calls in Hlast.
  all: try (injection Hlast as <- <-).
  all: try discriminate.
  all: try (rewrite Hr in *; discriminate).
  all: unfold apk_path in Hapk; try congruence.
  all: split; [reflexivity|apply last_snoc].
Qed.

Lemma bind_pre_build_inv {A B} (c : M A) (k : A -> M B) w o w' :
  pre_build c -> before_build w -> bind c k w = (o, w') ->
  (exists a w1, cwd w1 = cwd w /\ before_build w1 /\ k a w1 = (o, w')) \/
  before_build w'.
Proof.
  intros Hc Hw. unfold bind. destruct (c w) as [o1 w1] eqn:E.
  destruct (Hc _ _ _ E) as [Hcwd Hw1]. specialize (Hw1 Hw).
  destruct o1 as [a|n|e]; intros H.
  - left. eauto.
  - right. injection H as <- <-. exact Hw1.
  - right. injection H as <- <-. exact Hw1.
Qed.

(** C6.  In a run of [main] whose last process is the build launcher,
    returned with status 0, and which ends with no package at
    [<project>/app/build/outputs/apk/debug/app-debug.apk]: [main] returns
    normally, so the exit status is 0, and the last line printed reports
    the missing package. *)
Theorem C6_missing_apk_exits_zero sys sys_argv w o w' c r :
  calls w = [] ->
  main sys sys_argv w = (o, w') ->
  last (calls w') = Some (c, Some r) ->
  is_build c = true ->
  returncode r = 0%Z ->
  exists_at (cwd w') (fs w') (apk_path (cwd w') (nth 1 sys_argv "")) = false ->
  o = Ret tt /\ exit_code o = 0%Z /\ last (out w') = Some apk_missing_line.
Proof.
  intros Hc H Hlast Hb Hr Hapk.
  assert (before_build w) as Hw by (unfold before_build; rewrite Hc; constructor).
  assert (before_build w' -> False) as Hno.
  { intros Hw'. rewrite (before_build_last _ _ _ Hw' Hlast) in Hb. discriminate. }
  unfold main in H. destruct (negb (length sys_argv =? 5)%nat).
  { exfalso. apply Hno.
    assert (pre_build (run print_colored usage "red" ;; @sys_exit unit 1)) as Hp
      by pre_build_tac.
    exact (proj2 (Hp _ _ _ H) Hw). }
  apply bind_pre_build_inv in H as [(_ & w1 & _ & Hw1 & H)|H];
    [|exfalso; auto|apply pre_build_print_colored|exact Hw].
  apply bind_pre_build_inv in H as [(_ & w2 & _ & Hw2 & H)|H];
    [|exfalso; auto|apply pre_build_print_colored|exact Hw1].
  apply bind_pre_build_inv in H as [(_ & w3 & _ & Hw3 & H)|H];
    [|exfalso; auto|apply pre_build_makedirs|exact Hw2].
  apply bind_pre_build_inv in H as [(_ & w4 & _ & Hw4 & H)|H];
    [|exfalso; auto|apply pre_build_clone_template|exact Hw3].
  apply bind_pre_build_inv in H as [(_ & w5 & _ & Hw5 & H)|H];
    [|exfalso; auto|apply pre_build_customize_project|exact Hw4].
  destruct (compile_project_build _ _ _ _ _ _ _ Hw5 H Hlast Hb Hr Hapk) as [-> Hout].
  auto.
Qed.

(** ** Paths *)

Module PathFacts.
Import Path StrFacts.

Lemma plain_app : plain "app".
Proof. repeat split. Qed.


Lemma plain_nonempty c : plain c -> c <> "".
Proof. intros (_ & _ & H) ->. specialize (H []). discriminate. Qed.

Lemma endswith_sep_app y a : a <> "" -> endswith_sep (y +:+ a) = endswith_sep a.
Proof.
  intros Ha. induction y as [|c y IH]; [reflexivity|].
  rewrite app_cons. cbn [endswith_sep]. rewrite IH.
  destruct (y +:+ a) eqn:E; [|reflexivity].
  destruct y; [|discriminate]. rewrite app_empty_l in E. congruence.
Qed.

Lemma endswith_sep_inv a : endswith_sep a = true -> exists a', a = a' +:+ sep.
Proof.
  induction a as [|c a IH]; [discriminate|]. cbn [endswith_sep].
  destruct a as [|d a].
  - intros ->%Ascii.eqb_eq. exists "". reflexivity.
  - intros [a' Ha']%IH. exists (String c a'). rewrite app_cons, <- Ha'. reflexivity.
Qed.

Lemma startswith_app_l a b p :
  a <> "" -> Str.startswith (a +:+ b) (String p "") = Str.startswith a (String p "").
Proof.
  destruct a as [|c a]; [congruence|]. intros _.
  rewrite app_cons, !startswith_cons. reflexivity.
Qed.

Lemma app_nonempty_r a b : b <> "" -> a +:+ b <> "".
Proof. destruct a; [rewrite app_empty_l; auto|discriminate]. Qed.

(** [join a c] is [a] followed by a tail that is [c], with a separator
    when [a] does not end with one. *)
Lemma join_plain a c :
  plain c -> a <> "" ->
  join a c = a +:+ (if endswith_sep a then c else sep +:+ c).
Proof.
  intros (Hc & _) Ha. unfold join. rewrite Hc.
  destruct a as [|x a]; [congruence|]. cbn [String.eqb orb].
  destruct (endswith_sep (String x a)); reflexivity.
Qed.

Lemma join_assoc d a c :
  plain c -> a <> "" -> join d (join a c) = join (join d a) c.
Proof.
  intros Hc Ha. rewrite (join_plain a c Hc Ha).
  set (t := if endswith_sep a then c else sep +:+ c).
  assert (join d a <> "") as Hda.
  { unfold join. destruct (Str.startswith a sep); [exact Ha|].
    destruct (_ || _)%bool; repeat apply app_nonempty_r; exact Ha. }
  rewrite (join_plain _ c Hc Hda).
  assert (endswith_sep (join d a) = endswith_sep a) as ->.
  { unfold join. destruct (Str.startswith a sep); [reflexivity|].
    destruct (_ || _)%bool; [|rewrite <- (endswith_sep_app sep a Ha)];
      apply endswith_sep_app; [exact Ha|]. apply app_nonempty_r, Ha. }
  fold t. unfold join at 1. unfold sep at 1.
  rewrite (startswith_app_l a t "/" Ha). fold sep.
  unfold join. destruct (Str.startswith a sep); [reflexivity|].
  destruct (_ || _)%bool; rewrite ?app_assoc; reflexivity.
Qed.

Lemma split_sep_app acc a b :
  split_sep acc (a +:+ sep +:+ b) = split_sep acc a ++ split_sep "" b.
Proof.
  revert acc. induction a as [|c a IH]; intros acc.
  - reflexivity.
  - rewrite app_cons. cbn [split_sep]. destruct (Ascii.eqb c "/").
    + rewrite IH. reflexivity.
    + apply IH.
Qed.

Lemma split_sep_snoc acc a : split_sep acc (a +:+ sep) = split_sep acc a ++ [""].
Proof. rewrite <- (app_empty_r sep) at 1. rewrite split_sep_app. reflexivity. Qed.

Lemma components_join a c :
  plain c -> components (join a c) = components a ++ [c].
Proof.
  intros Hc. pose proof Hc as (Hs & Hsp & He).
  destruct a as [|x a].
  - unfold join. rewrite Hs. cbn [String.eqb orb]. rewrite app_empty_l.
    unfold components. rewrite Hsp. cbn. apply He.
  - rewrite (join_plain _ c Hc) by discriminate. unfold components.
    destruct (endswith_sep (String x a)) eqn:E.
    + apply endswith_sep_inv in E as [a' ->].
      rewrite app_assoc, split_sep_app, split_sep_snoc, Hsp, !fold_left_app.
      cbn [fold_left]. rewrite He. reflexivity.
    + rewrite split_sep_app, Hsp, fold_left_app. cbn [fold_left]. apply He.
Qed.

Lemma join_nonempty a c : c <> "" -> join a c <> "".
Proof.
  intros Hc. unfold join. destruct (Str.startswith c sep); [exact Hc|].
  destruct (_ || _)%bool; repeat apply app_nonempty_r; exact Hc.
Qed.

(** The node a path names, one plain component further down. *)
Lemma resolve_join d a c k :
  plain c -> a <> "" ->
  resolve d a = Some k -> resolve d (join a c) = Some (k ++ [c]).
Proof.
  intros Hc Ha. unfold resolve.
  destruct (String.eqb_spec a ""); [congruence|]. intros [= <-].
  destruct (String.eqb_spec (join a c) "") as [E|_].
  - exfalso. revert E. apply join_nonempty, (plain_nonempty _ Hc).
  - rewrite (join_assoc _ _ _ Hc Ha), (components_join _ _ Hc). reflexivity.
Qed.

Lemma resolve_nonempty d a : a <> "" -> exists k, resolve d a = Some k.
Proof. intros Ha. unfold resolve. destruct (String.eqb_spec a ""); [congruence|eauto]. Qed.

End PathFacts.

(** ** More on the file system *)

Module FSFacts.
Import FS.








End FSFacts.

(** ** [customize_project] on a descriptor that is missing *)






(** Whatever the file system, a missing descriptor never makes
    [customize_project] call [sys.exit]. *)
Lemma customize_project_never_exits
    w project_name package_name min_sdk target_sdk o w' n :
  customize_project project_name package_name min_sdk target_sdk w = (o, w') ->
  o <> Exit n.
Proof.
  unfold customize_project, create_default_build_gradle, bind, getcwd, path_exists,
    makedirs, read_file, write_file, on_fs, print_colored, print, ret.
  cbn [cwd fs out calls]. intros H.
  repeat split_run H; injection H as <- <-; discriminate.
Qed.

(** ** [main]: the arguments *)


(** An empty project name is not refused either: [os.makedirs] is called
    with it and raises; nothing has been spawned. *)
Lemma main_empty_project_name sys script package_name min_sdk target_sdk w :
  exists w',
    main sys [script; ""; package_name; min_sdk; target_sdk] w =
      (Raise FileNotFoundError, w') /\
    fs w' = fs w /\ calls w' = calls w.
Proof.
  unfold main. cbn [length Nat.eqb negb nth].
  unfold bind, print_colored, print, makedirs, on_fs, Path.resolve.
  cbn [String.eqb cwd fs out calls].
  eexists. split; [reflexivity|]. split; reflexivity.
Qed.

(** ** The statements at work on the sample host *)








(** C6 on the sample host, whose build returns 0 and produces nothing. *)
Lemma C6_missing_apk_exits_zero_witness :
  fst (main (host "-rwxr-xr-x") sample_argv empty_work) = Ret tt /\
  exit_code (fst (main (host "-rwxr-xr-x") sample_argv empty_work)) = 0%Z /\
  last (out (snd (main (host "-rwxr-xr-x") sample_argv empty_work))) =
    Some apk_missing_line.
Proof.
  eapply (C6_missing_apk_exits_zero (host "-rwxr-xr-x") sample_argv empty_work).
  - reflexivity.
  - apply surjective_pairing.
  - vm_compute. reflexivity.
  - reflexivity.
  - reflexivity.
  - vm_compute. reflexivity.
Defined.

(** C7 on a clone without launcher. *)
Lemma C7_wrapper_before_permissions_witness :
  exists res rest,
    calls (snd (ensure_gradlew (host "-rwxr-xr-x") "MyApp"
                  (cloned_without_launcher "MyApp"))) =
      calls (cloned_without_launcher "MyApp") ++ (wrapper_call "MyApp", res) :: rest /\
    ((forall r, res = Some r -> returncode r <> 0%Z) ->
     rest = [] /\
     fst (ensure_gradlew (host "-rwxr-xr-x") "MyApp"
            (cloned_without_launcher "MyApp")) <> Ret tt /\
     exit_code (fst (ensure_gradlew (host "-rwxr-xr-x") "MyApp"
                       (cloned_without_launcher "MyApp"))) = 1%Z).
Proof.
  apply (C7_wrapper_before_permissions (host "-rwxr-xr-x") "MyApp"
           (cloned_without_launcher "MyApp")).
  - vm_compute. reflexivity.
  - apply surjective_pairing.
Defined.



(** C10 on the sample host, whose [gradle wrapper] returns 0 and writes
    nothing. *)
Lemma C10_wrapper_leaves_no_launcher_witness :
  ensure_gradlew (host "-rwxr-xr-x") "MyApp" (cloned_without_launcher "MyApp") =
    (Exit 1,
     World work (fs (cloned_without_launcher "MyApp"))
           [wrapper_line; launcher_missing_line]
           [(wrapper_call "MyApp", Some done_ok)]).
Proof.
  apply (C10_wrapper_leaves_no_launcher (host "-rwxr-xr-x") "MyApp"
           (cloned_without_launcher "MyApp") done_ok
           (fs (cloned_without_launcher "MyApp"))).
  - vm_compute. reflexivity.
  - reflexivity.
  - reflexivity.
  - vm_compute. reflexivity.
Defined.


(** * Further properties of the script *)

(** ** Which programs a stage spawns, and how it can exit *)


Lemma spawns_here {A} l (c : M A) :
  (forall w o w', c w = (o, w') ->
     cwd w' = cwd w /\ calls w' = calls w /\ forall n, o = Exit n -> n = 1%Z) ->
  spawns l c.
Proof.
  intros H w o w' E. destruct (H _ _ _ E) as (H1 & H2 & H3).
  split; [exact H1|]. split; [|exact H3].
  exists []. rewrite app_nil_r. split; [exact H2|apply sublist_nil_l].
Qed.

Lemma spawns_ret {A} l (a : A) : spawns l (ret a).
Proof. apply spawns_here. intros w o w' [= <- <-]. repeat split. discriminate. Qed.

Lemma spawns_exit {A} l : spawns l (@sys_exit A 1).
Proof. apply spawns_here. intros w o w' [= <- <-]. repeat split. congruence. Qed.

Lemma spawns_print_colored l message color : spawns l (print_colored message color).
Proof. apply spawns_here. intros w o w' [= <- <-]. repeat split. discriminate. Qed.

Lemma spawns_getcwd l : spawns l getcwd.
Proof. apply spawns_here. intros w o w' [= <- <-]. repeat split. discriminate. Qed.

Lemma spawns_path_exists l p : spawns l (path_exists p).
Proof. apply spawns_here. intros w o w' [= <- <-]. repeat split. discriminate. Qed.

Lemma spawns_on_fs l p op : spawns l (on_fs p op).
Proof.
  apply spawns_here. intros w o w'. unfold on_fs.
  destruct (Path.resolve (cwd w) p) as [k|]; [destruct (op (fs w) k)|];
    intros [= <- <-]; repeat split; discriminate.
Qed.

Lemma spawns_read_file l p : spawns l (read_file p).
Proof.
  apply spawns_here. intros w o w'. unfold read_file.
  destruct (Path.resolve (cwd w) p) as [k|]; [destruct (FS.read (fs w) k)|];
    intros [= <- <-]; repeat split; discriminate.
Qed.

Lemma spawns_run sys p args dir l :
  spawns (p :: l) (subprocess_run sys (p :: args) dir).
Proof.
  intros w o w'. unfold subprocess_run.
  destruct (sys _ (fs w)) as [[r m]|]; intros [= <- <-]; cbn [cwd calls];
    (split; [reflexivity|]); (split; [|discriminate]);
    eexists [_]; (split; [reflexivity|]); cbn; apply sublist_skip, sublist_nil_l.
Qed.

Lemma spawns_bind {A B} l1 l2 (c : M A) (k : A -> M B) :
  spawns l1 c -> (forall a, spawns l2 (k a)) -> spawns (l1 ++ l2) (bind c k).
Proof.
  intros Hc Hk w o w'. unfold bind.
  destruct (c w) as [o1 w1] eqn:E.
  destruct (Hc _ _ _ E) as (Hcwd & (new1 & Hnew1 & Hsub1) & Hex).
  destruct o1 as [a|n|e].
  - intros H. destruct (Hk a _ _ _ H) as (Hcwd' & (new2 & Hnew2 & Hsub2) & Hex').
    split; [congruence|]. split; [|exact Hex'].
    exists (new1 ++ new2). rewrite Hnew2, Hnew1, <- app_assoc. split; [reflexivity|].
    rewrite map_app. apply sublist_app; assumption.
  - intros [= <- <-]. split; [exact Hcwd|]. split.
    + exists new1. split; [exact Hnew1|]. apply sublist_inserts_r, Hsub1.
    + intros n0 [= <-]. apply Hex. reflexivity.
  - intros [= <- <-]. split; [exact Hcwd|]. split; [|discriminate].
    exists new1. split; [exact Hnew1|]. apply sublist_inserts_r, Hsub1.
Qed.

(** One step of a stage: a quiet action, a branch, or a process that is
    next in the list. *)
Ltac spawns_tac :=
  repeat first
    [ apply spawns_ret
    | apply spawns_exit
    | apply spawns_print_colored
    | apply spawns_getcwd
    | apply spawns_path_exists
    | apply spawns_on_fs
    | apply spawns_read_file
    | match goal with
      | |- spawns (?p :: ?l) (bind (subprocess_run _ (?p :: _) _) _) =>
          apply (spawns_bind [p] l); [apply spawns_run|intros ?]
      | |- spawns ?l (bind _ _) => apply (spawns_bind [] l); [|intros ?]
      | |- spawns _ (if ?b then _ else _) => destruct b
      end ].

Lemma spawns_makedirs l p exist_ok : spawns l (makedirs p exist_ok).
Proof. apply spawns_on_fs. Qed.

Lemma spawns_clone_template sys repo project_name l :
  spawns ("git" :: l) (clone_template sys repo project_name).
Proof. unfold clone_template. spawns_tac. Qed.

Lemma spawns_customize_project project_name package_name min_sdk target_sdk :
  spawns [] (customize_project project_name package_name min_sdk target_sdk).
Proof.
  unfold customize_project, create_default_build_gradle, makedirs, write_file.
  spawns_tac.
Qed.

Lemma spawns_ensure_gradlew sys project_name l :
  spawns ("gradle" :: "ls" :: "chmod" :: l) (ensure_gradlew sys project_name).
Proof.
  unfold ensure_gradlew.
  apply (spawns_bind [] _); [apply spawns_path_exists|intros present].
  apply (spawns_bind ["gradle"] ("ls" :: "chmod" :: l)); [|intros _].
  { destruct present; spawns_tac. }
  apply (spawns_bind [] _); [apply spawns_path_exists|intros present'].
  destruct present'; [|spawns_tac].
  apply (spawns_bind [] _); [apply spawns_print_colored|intros _].
  apply (spawns_bind ["ls"] ("chmod" :: l)); [apply spawns_run|intros result].
  spawns_tac.
Qed.

Lemma spawns_compile_project sys project_name :
  spawns ["gradle"; "ls"; "chmod"; "sh"] (compile_project sys project_name).
Proof.
  unfold compile_project.
  apply (spawns_bind [] _); [apply spawns_getcwd|intros here].
  apply (spawns_bind ["gradle"; "ls"; "chmod"] ["sh"]);
    [apply spawns_ensure_gradlew|intros _].
  spawns_tac.
Qed.

Lemma spawns_main sys sys_argv : spawns stages (main sys sys_argv).
Proof.
  unfold main, stages. destruct (negb _); [spawns_tac|].
  cbv zeta.
  apply (spawns_bind [] _); [apply spawns_print_colored|intros _].
  apply (spawns_bind [] _); [apply spawns_print_colored|intros _].
  apply (spawns_bind [] _); [apply spawns_makedirs|intros _].
  apply (spawns_bind ["git"] ["gradle"; "ls"; "chmod"; "sh"]);
    [apply spawns_clone_template|intros _].
  apply (spawns_bind [] _); [apply spawns_customize_project|intros _].
  apply spawns_compile_project.
Qed.

(** The processes of a run of [main] come in the order of the stages:
    [git], [gradle], [ls], [chmod], [sh], each at most once. *)
Theorem main_spawns_in_stage_order sys sys_argv w :
  exists new,
    calls (snd (main sys sys_argv w)) = calls w ++ new /\
    sublist (map prog new) stages.
Proof.
  destruct (main sys sys_argv w) as [o w'] eqn:E.
  exact (proj1 (proj2 (spawns_main sys sys_argv _ _ _ E))).
Qed.

(** [main] ends with status 0 or 1, whatever the host does. *)
Theorem main_exit_status sys sys_argv w :
  exit_code (fst (main sys sys_argv w)) = 0%Z \/
  exit_code (fst (main sys sys_argv w)) = 1%Z.
Proof.
  destruct (main sys sys_argv w) as [o w'] eqn:E.
  destruct (spawns_main sys sys_argv _ _ _ E) as (_ & _ & Hex).
  destruct o as [a|n|e]; cbn; [left; reflexivity| |right; reflexivity].
  right. apply Hex. reflexivity.
Qed.

(** [customize_project] spawns no process and stays in the working
    directory, whatever it finds on disk. *)
Theorem customize_project_spawns_nothing
    project_name package_name min_sdk target_sdk w :
  calls (snd (customize_project project_name package_name min_sdk target_sdk w)) =
    calls w /\
  cwd (snd (customize_project project_name package_name min_sdk target_sdk w)) = cwd w.
Proof.
  destruct (customize_project _ _ _ _ w) as [o w'] eqn:E.
  destruct (spawns_customize_project _ _ _ _ _ _ _ E) as (Hcwd & (new & Hnew & Hsub) & _).
  apply sublist_nil_r, map_eq_nil in Hsub. subst new.
  rewrite app_nil_r in Hnew. auto.
Qed.

(** ** How a run of [main] ends *)

Lemma bind_stop_inv {A B} (c : M A) (k : A -> M B) w o w' :
  pre_build c -> before_build w -> bind c k w = (o, w') ->
  (exists a w1, cwd w1 = cwd w /\ before_build w1 /\ k a w1 = (o, w')) \/
  (before_build w' /\ forall b, o <> Ret b).
Proof.
  intros Hc Hw. unfold bind. destruct (c w) as [o1 w1] eqn:E.
  destruct (Hc _ _ _ E) as [Hcwd Hw1]. specialize (Hw1 Hw).
  destruct o1 as [a|n|e]; intros H.
  - left. eauto.
  - right. injection H as <- <-. split; [exact Hw1|discriminate].
  - right. injection H as <- <-. split; [exact Hw1|discriminate].
Qed.

(** The ways [compile_project] ends, read off the last process of the run. *)
Lemma compile_project_end sys project_name w o w' :
  before_build w ->
  compile_project sys project_name w = (o, w') ->
  (before_build w' /\ o <> Ret tt) \/
  (exists c, last (calls w') = Some (c, None) /\ is_build c = true /\ o <> Ret tt) \/
  (exists c r, last (calls w') = Some (c, Some r) /\ is_build c = true /\
     returncode r <> 0%Z /\ o = Exit 1 /\
     exists pre, out w' = pre ++ [build_failed_line; build_error_line r]) \/
  (exists c r, last (calls w') = Some (c, Some r) /\ is_build c = true /\
     returncode r = 0%Z /\ o = Ret tt /\
     exists pre,
       out w' = pre ++ [build_ok_line;
                        if exists_at (cwd w') (fs w') (apk_path (cwd w') project_name)
                        then apk_built_line (cwd w') project_name
                        else apk_missing_line]).
Proof.
  intros Hw. unfold compile_project, bind, getcwd.
  destruct (ensure_gradlew sys project_name w) as [o1 w1] eqn:E1.
  destruct (pre_build_ensure_gradlew _ _ _ _ _ E1) as [Hcwd Hw1].
  specialize (Hw1 Hw).
  destruct o1 as [[]|n|e].
  2,3: intros [= <- <-]; left; split; [exact Hw1|discriminate].
  unfold subprocess_run, print_colored, print, sys_exit, path_exists.
  cbn [cwd fs out calls]. rewrite <- Hcwd.
  destruct (sys _ (fs w1)) as [[r m]|] eqn:Esys; cbn [cwd fs out calls].
  2: { intros [= <- <-]. right. left. eexists. cbn [calls].
       rewrite last_snoc. repeat split. discriminate. }
  destruct (negb (returncode r =? 0)%Z) eqn:Erc; cbn [cwd fs out calls].
  - intros [= <- <-]. right. right. left. eexists _, r. cbn [calls out].
    rewrite last_snoc. split; [reflexivity|]. split; [reflexivity|].
    apply negb_true_iff, Z.eqb_neq in Erc. split; [exact Erc|].
    split; [reflexivity|]. eexists. rewrite <- app_assoc. reflexivity.
  - apply negb_false_iff, Z.eqb_eq in Erc.
    intros H. right. right. right. exists (Call ["sh"; Path.join (Path.join (cwd w1) project_name) "gradlew"; "assembleDebug"] (Some (Path.join (cwd w1) project_name))), r.
    fold (apk_path (cwd w1) project_name) in H.
    destruct (exists_at (cwd w1) m (apk_path (cwd w1) project_name)) eqn:Eapk;
      injection H as <- <-; cbn [cwd fs out calls]; rewrite last_snoc, Eapk;
      (split; [reflexivity|]); (split; [reflexivity|]); (split; [exact Erc|]);
      (split; [reflexivity|]); eexists; rewrite <- app_assoc; reflexivity.
Qed.

(** The same for [main]. *)
Lemma main_end sys sys_argv w o w' :
  calls w = [] ->
  main sys sys_argv w = (o, w') ->
  (before_build w' /\ o <> Ret tt) \/
  (exists c, last (calls w') = Some (c, None) /\ is_build c = true /\ o <> Ret tt) \/
  (exists c r, last (calls w') = Some (c, Some r) /\ is_build c = true /\
     returncode r <> 0%Z /\ o = Exit 1 /\
     exists pre, out w' = pre ++ [build_failed_line; build_error_line r]) \/
  (exists c r, last (calls w') = Some (c, Some r) /\ is_build c = true /\
     returncode r = 0%Z /\ o = Ret tt /\
     exists pre,
       out w' = pre ++ [build_ok_line;
                        if exists_at (cwd w') (fs w')
                                     (apk_path (cwd w') (nth 1 sys_argv ""))
                        then apk_built_line (cwd w') (nth 1 sys_argv "")
                        else apk_missing_line]).
Proof.
  intros Hc H.
  assert (before_build w) as Hw by (unfold before_build; rewrite Hc; constructor).
  unfold main in H. destruct (negb (length sys_argv =? 5)%nat).
  { left.
    assert (pre_build (run print_colored usage "red" ;; @sys_exit unit 1)) as Hp
      by pre_build_tac.
    split; [exact (proj2 (Hp _ _ _ H) Hw)|].
    unfold bind, print_colored, print, sys_exit in H. injection H as <- _. discriminate. }
  apply bind_stop_inv in H as [(_ & w1 & _ & Hw1 & H)|[H Ho]];
    [|left; auto|apply pre_build_print_colored|exact Hw].
  apply bind_stop_inv in H as [(_ & w2 & _ & Hw2 & H)|[H Ho]];
    [|left; auto|apply pre_build_print_colored|exact Hw1].
  apply bind_stop_inv in H as [(_ & w3 & _ & Hw3 & H)|[H Ho]];
    [|left; auto|apply pre_build_makedirs|exact Hw2].
  apply bind_stop_inv in H as [(_ & w4 & _ & Hw4 & H)|[H Ho]];
    [|left; auto|apply pre_build_clone_template|exact Hw3].
  apply bind_stop_inv in H as [(_ & w5 & _ & Hw5 & H)|[H Ho]];
    [|left; auto|apply pre_build_customize_project|exact Hw4].
  exact (compile_project_end _ _ _ _ _ Hw5 H).
Qed.

Lemma not_before_build_last w c r :
  last (calls w) = Some (c, r) -> is_build c = true -> ~ before_build w.
Proof. intros Hl Hb Hw. rewrite (before_build_last _ _ _ Hw Hl) in Hb. discriminate. Qed.

(** [main] returns, hence exits with status 0, exactly when the last
    process of the run is the build launcher and it returned 0. *)
Theorem main_returns_iff_build_succeeded sys sys_argv w :
  calls w = [] ->
  (fst (main sys sys_argv w) = Ret tt <->
   exists c r, last (calls (snd (main sys sys_argv w))) = Some (c, Some r) /\
               is_build c = true /\ returncode r = 0%Z).
Proof.
  intros Hc. destruct (main sys sys_argv w) as [o w'] eqn:E. cbn [fst snd].
  destruct (main_end _ _ _ _ _ Hc E)
    as [[Hw' Ho]|[(c & Hl & Hb & Ho)|[(c & r & Hl & Hb & Hr & Ho & _)
       |(c & r & Hl & Hb & Hr & Ho & _)]]].
  - split; [congruence|]. intros (c & r & Hl & Hb & _).
    exfalso. eapply not_before_build_last; eauto.
  - split; [congruence|]. intros (c' & r & Hl' & _). congruence.
  - split; [congruence|]. intros (c' & r' & Hl' & _ & Hr'). congruence.
  - split; [eauto|auto].
Qed.


(** When the build launcher returned 0 and the package is there, the last
    two lines printed announce the success and the package, at the path
    [compile_project] looked for. *)
Theorem main_reports_package sys sys_argv w o w' c r :
  calls w = [] ->
  main sys sys_argv w = (o, w') ->
  last (calls w') = Some (c, Some r) ->
  is_build c = true ->
  returncode r = 0%Z ->
  exists_at (cwd w') (fs w') (apk_path (cwd w') (nth 1 sys_argv "")) = true ->
  o = Ret tt /\
  exists pre,
    out w' = pre ++ [build_ok_line; apk_built_line (cwd w') (nth 1 sys_argv "")].
Proof.
  intros Hc E Hl Hb Hr Hapk.
  destruct (main_end _ _ _ _ _ Hc E)
    as [[Hw' Ho]|[(c' & Hl' & _)|[(c' & r' & Hl' & _ & Hr' & _)
       |(c' & r' & Hl' & _ & _ & Ho & Hout)]]].
  - exfalso. eapply not_before_build_last; eauto.
  - congruence.
  - exfalso. assert (r' = r) by congruence. subst. auto.
  - rewrite Hapk in Hout. auto.
Qed.

(** ** More on strings *)

Module StrMore.
Import Str StrFacts.








End StrMore.

(** ** [ensure_gradlew] with the launcher in place *)

Lemma plain_gradlew : plain "gradlew".
Proof. repeat split. Qed.




(** With the launcher in place the wrapper is not generated: the first
    process is [ls -l], at most a [chmod] follows, and when [ls] cannot be
    started or returns a non-zero status nothing follows and the run ends
    with status 1. *)
Theorem ensure_gradlew_present_inspects_first sys project_name w o w' :
  exists_at (cwd w) (fs w) (gradlew_of project_name) = true ->
  ensure_gradlew sys project_name w = (o, w') ->
  exists res rest,
    calls w' = calls w ++ (ls_call project_name, res) :: rest /\
    (rest = [] \/ exists res', rest = [(chmod_call project_name, res')]) /\
    ((forall r, res = Some r -> returncode r <> 0%Z) ->
     rest = [] /\ o <> Ret tt /\ exit_code o = 1%Z).
Proof.
  unfold gradlew_of, ls_call, chmod_call. intros H0 H. revert H.
  unfold_stage. rewrite H0. cbn [cwd fs out calls negb].
  rewrite H0. cbn [cwd fs out calls negb]. intros H.
  repeat split_run H;
    injection H as <- <-; cbn [calls]; rewrite <- ?app_assoc; cbn [app];
    eexists _, _; (split; [reflexivity|]);
    (split; [first [left; reflexivity|right; eexists; reflexivity]|]); intros Hf;
    first
      [ solve [repeat split; first [reflexivity | discriminate]]
      | exfalso; eapply Hf; [reflexivity|];
        match goal with E : negb (_ =? 0)%Z = false |- _ =>
          apply negb_false_iff, Z.eqb_eq in E; exact E end ].
Qed.

(** ** [main] when the clone fails *)


(** ** [print_colored] *)

(** A color that is not one of [green], [yellow], [red] prints as [reset]
    does: the message between two reset codes. *)
Theorem colored_unknown_color message color :
  color <> "green" -> color <> "yellow" -> color <> "red" ->
  colored message color = colors_at "reset" +:+ message +:+ colors_at "reset".
Proof.
  intros Hg Hy Hr. unfold colored, colors.
  rewrite !lookup_insert_ne by congruence.
  destruct (decide (color = "reset")) as [->|Hn].
  - rewrite lookup_insert_eq. reflexivity.
  - rewrite lookup_insert_ne, lookup_empty by congruence. reflexivity.
Qed.

(** ** [os.makedirs] *)

Lemma mkdir_leaf_ok (m : gmap (list string) node) k exist_ok m' :
  FS.mkdir_leaf m k exist_ok = Ok m' -> FS.stat m' k = Some Dir.
Proof.
  unfold FS.mkdir_leaf, FS.mkdir, FS.isdir.
  destruct (FS.stat m k) as [n|] eqn:Ek.
  - destruct exist_ok; [|discriminate]. cbn [andb].
    destruct n; [discriminate|]. intros [= <-]. exact Ek.
  - destruct (FS.stat m (FS.parent k)) as [[c|]|]; cbn.
    + destruct exist_ok; discriminate.
    + intros [= <-]. apply stat_insert_eq. intros ->. discriminate.
    + destruct exist_ok; discriminate.
Qed.

Lemma makedirs_ok (m : gmap (list string) node) k exist_ok m' :
  FS.makedirs m k exist_ok = Ok m' -> FS.stat m' k = Some Dir.
Proof.
  unfold FS.makedirs. destruct (length k) as [|fuel]; cbn [FS.makedirs_up].
  - apply mkdir_leaf_ok.
  - destruct k as [|c k]; [apply mkdir_leaf_ok|].
    destruct (FS.stat m (FS.parent (c :: k))); [apply mkdir_leaf_ok|].
    destruct (FS.makedirs_up fuel m (FS.parent (c :: k)) exist_ok) as [m1|[]];
      try discriminate; apply mkdir_leaf_ok.
Qed.

(** When [os.makedirs] returns, with or without [exist_ok], the path names
    a directory. *)
Theorem makedirs_makes_directory p exist_ok w w' :
  makedirs p exist_ok w = (Ret tt, w') ->
  node_at (cwd w') (fs w') p = Some Dir.
Proof.
  unfold makedirs, on_fs, node_at.
  destruct (Path.resolve (cwd w) p) as [k|] eqn:Ek; [|discriminate].
  destruct (FS.makedirs (fs w) k exist_ok) as [m'|e] eqn:E; [|discriminate].
  intros [= <-]. cbn [cwd fs]. rewrite Ek. eapply makedirs_ok, E.
Qed.

(** ** Customizing twice *)

Lemma substitute_removes_placeholders c package_name min_sdk target_sdk :
  no_overlap package_name min_sdk target_sdk = true ->
  Str.str_in placeholder_package (substitute c package_name min_sdk target_sdk) = false /\
  Str.str_in placeholder_min (substitute c package_name min_sdk target_sdk) = false /\
  Str.str_in placeholder_target (substitute c package_name min_sdk target_sdk) = false.
Proof.
  intros Hno.
  assert (forall ph n, In ph placeholders ->
            In n (replacements package_name min_sdk target_sdk) ->
            Overlap.overlap_free ph n = true) as Hof
    by (intros; eapply no_overlap_inv; eauto).
  unfold placeholders, replacements in Hof.
  unfold substitute, placeholder_package, placeholder_min, placeholder_target in *.
  set (n2 := "minSdkVersion " +:+ min_sdk) in *.
  set (n3 := "targetSdkVersion " +:+ target_sdk) in *.
  set (s1 := Str.replace c "com.example.app" package_name).
  set (s2 := Str.replace s1 "minSdkVersion 21" n2).
  assert (forall t s a o new, t <> "" -> Overlap.overlap_free t new = true ->
            Str.str_in t s = false ->
            Str.str_in t (Str.replace s (String a o) new) = false) as Hkeep.
  { intros t s a o new Ht Ho Hs.
    destruct (Str.str_in t (Str.replace s (String a o) new)) eqn:E; [|reflexivity].
    apply StrFacts.str_in_replace_inv in E; [congruence|exact Ho|exact Ht]. }
  assert (Str.str_in "com.example.app" s1 = false) as P1
    by (apply StrFacts.str_in_replace_old, Hof; simpl; auto).
  assert (Str.str_in "minSdkVersion 21" s2 = false) as P2
    by (apply StrFacts.str_in_replace_old, Hof; simpl; auto).
  split; [|split].
  - apply Hkeep; [discriminate|apply Hof; simpl; auto|].
    apply Hkeep; [discriminate|apply Hof; simpl; auto|exact P1].
  - apply Hkeep; [discriminate|apply Hof; simpl; auto|exact P2].
  - apply StrFacts.str_in_replace_old, Hof; simpl; auto.
Qed.

(** The three substitutions, done a second time with the same values,
    change nothing more, provided no placeholder can overlap a replacement
    text. *)
Theorem substitute_idempotent c package_name min_sdk target_sdk :
  no_overlap package_name min_sdk target_sdk = true ->
  substitute (substitute c package_name min_sdk target_sdk)
             package_name min_sdk target_sdk =
  substitute c package_name min_sdk target_sdk.
Proof.
  intros Hno.
  destruct (substitute_removes_placeholders c _ _ _ Hno) as (H1 & H2 & H3).
  apply substitute_absent; assumption.
Qed.

Section LineEndings.
Import Str StrFacts StrMore.




End LineEndings.


(** ** The default descriptor goes through the substitutions unchanged *)

Section Around.
Import Str StrFacts Overlap.






End Around.





(** ** A run in which every stage succeeds *)


(** ** What [create_default_build_gradle] leaves *)

(** Whenever [create_default_build_gradle] returns, the descriptor holds
    the default content for the values it was given. *)
Theorem create_default_build_gradle_post
    w project_name package_name min_sdk target_sdk w1 :
  create_default_build_gradle (Path.join (cwd w) project_name)
      package_name min_sdk target_sdk w = (Ret tt, w1) ->
  descriptor w1 project_name =
    Some (File (build_gradle_content package_name min_sdk target_sdk)).
Proof.
  unfold create_default_build_gradle, bind, path_exists, makedirs, write_file, ret.
  intros H.
  assert (forall w0 w2, cwd w0 = cwd w ->
            on_fs (Path.join (Path.join (Path.join (cwd w) project_name) "app")
                             "build.gradle")
                  (fun m k => FS.write m k
                     (build_gradle_content package_name min_sdk target_sdk)) w0
              = (Ret tt, w2) ->
            descriptor w2 project_name =
              Some (File (build_gradle_content package_name min_sdk target_sdk)))
    as Hwrite.
  { intros w0 w2 Hcwd. unfold on_fs, descriptor, node_at, descriptor_path.
    rewrite Hcwd.
    destruct (Path.resolve (cwd w) _) as [k|] eqn:Ek; [|discriminate].
    unfold FS.write.
    destruct (FS.stat (fs w0) k) as [[c|]|] eqn:Es.
    - intros [= <-]. cbn [cwd fs]. rewrite ?Hcwd, Ek.
      apply stat_insert_eq. eapply stat_file_nonroot, Es.
    - discriminate.
    - destruct (FS.stat (fs w0) (FS.parent k)) as [[c|]|]; try discriminate.
      intros [= <-]. cbn [cwd fs]. rewrite ?Hcwd, Ek.
      apply stat_insert_eq. intros ->. discriminate. }
  destruct (negb (exists_at (cwd w) (fs w) _)).
  - unfold on_fs at 1 in H.
    destruct (Path.resolve (cwd w) _) as [k|]; [|discriminate].
    destruct (FS.makedirs (fs w) k false) as [m|e]; [|discriminate].
    eapply Hwrite; [|exact H]. reflexivity.
  - eapply Hwrite; [|exact H]. reflexivity.
Qed.

(** ** [ensure_gradlew]: from the wrapper to the inspection *)

(** When the launcher is absent and [gradle wrapper] returns 0 and brings
    it, the next process is [ls -l] on the launcher, and at most a [chmod]
    follows. *)
Theorem ensure_gradlew_generates_then_inspects sys project_name w r m' o w' :
  exists_at (cwd w) (fs w) (gradlew_of project_name) = false ->
  sys (wrapper_call project_name) (fs w) = Some (r, m') ->
  returncode r = 0%Z ->
  exists_at (cwd w) m' (gradlew_of project_name) = true ->
  ensure_gradlew sys project_name w = (o, w') ->
  exists res rest,
    calls w' = calls w ++ (wrapper_call project_name, Some r)
                       :: (ls_call project_name, res) :: rest /\
    (rest = [] \/ exists res', rest = [(chmod_call project_name, res')]).
Proof.
  unfold gradlew_of, wrapper_call, ls_call, chmod_call. intros H0 Hsys Hr H1 H.
  revert H. unfold_stage. rewrite H0. cbn [cwd fs out calls negb].
  rewrite Hsys, Hr. cbn [cwd fs out calls negb Z.eqb].
  rewrite H1. cbn [cwd fs out calls]. intros H.
  repeat split_run H;
    injection H as <- <-; cbn [calls]; rewrite <- ?app_assoc; cbn [app];
    eexists _, _; (split; [reflexivity|]);
    first [left; reflexivity|right; eexists; reflexivity].
Qed.

(** ** The paths the stages use *)

Section Paths.
Import Path PathFacts.

(** The launcher [compile_project] runs, spelled from [os.getcwd()], is the
    launcher [ensure_gradlew] looked at, spelled from the project name. *)
Theorem launcher_paths_agree dir project_name :
  Str.startswith dir sep = true -> project_name <> "" ->
  resolve dir (nth 1 (argv (build_call dir project_name)) "") =
  resolve dir (gradlew_of project_name).
Proof.
  intros Hdir Hpn. cbn [build_call argv nth]. unfold gradlew_of.
  assert (join dir project_name <> "") as Hne.
  { unfold join. destruct (Str.startswith project_name sep); [exact Hpn|].
    destruct (_ || _)%bool; repeat apply app_nonempty_r; exact Hpn. }
  assert (Str.startswith (join dir project_name) sep = true) as Habs.
  { unfold join. destruct (Str.startswith project_name sep) eqn:E; [exact E|].
    destruct dir as [|c dir]; [discriminate|]. unfold sep in Hdir |- *.
    destruct (_ || _)%bool;
      rewrite (startswith_app_l (String c dir) _ "/") by discriminate; exact Hdir. }
  unfold resolve.
  destruct (String.eqb_spec (join (join dir project_name) "gradlew") "") as [E|_];
    [exfalso; revert E; apply join_nonempty; discriminate|].
  destruct (String.eqb_spec (join project_name "gradlew") "") as [E|_];
    [exfalso; revert E; apply join_nonempty; discriminate|].
  f_equal. f_equal.
  rewrite (join_assoc dir project_name "gradlew" plain_gradlew Hpn).
  rewrite (join_plain _ _ plain_gradlew Hne).
  unfold join at 1. unfold sep in Habs |- *.
  rewrite (startswith_app_l _ _ "/" Hne), Habs. reflexivity.
Qed.

(** [chmod +x] is run in the project directory with the launcher's path
    as spelled from the script's directory: for a project name that is a
    single plain name, that names [<project>/<project>/gradlew], not the
    launcher [ls -l] looked at. *)
Theorem chmod_names_a_nested_path dir project_name k :
  plain project_name ->
  resolve dir project_name = Some k ->
  resolve dir (nth 2 (argv (ls_call project_name)) "") = Some (k ++ ["gradlew"]) /\
  resolve (join dir (default "" (run_cwd (chmod_call project_name))))
          (nth 2 (argv (chmod_call project_name)) "") =
    Some (k ++ [project_name; "gradlew"]).
Proof.
  intros Hpl Hk. unfold ls_call, chmod_call. cbn [argv run_cwd nth from_option id].
  pose proof (plain_nonempty _ Hpl) as Hne.
  split.
  - apply (resolve_join _ _ _ _ plain_gradlew Hne Hk).
  - assert (resolve (join dir project_name) project_name = Some (k ++ [project_name]))
      as Hk2.
    { revert Hk. unfold resolve.
      destruct (String.eqb_spec project_name ""); [congruence|].
      intros [= <-]. rewrite (components_join _ _ Hpl). reflexivity. }
    rewrite (resolve_join _ _ _ _ plain_gradlew Hne Hk2), <- app_assoc. reflexivity.
Qed.

End Paths.

Lemma plain_MyApp : plain "MyApp".
Proof. repeat split. Qed.

Lemma create_default_build_gradle_post_witness :
  descriptor (snd (create_default_build_gradle (Path.join (cwd bare_project) "MyApp")
                     "com.test.app" "23" "33" bare_project)) "MyApp" =
    Some (File (build_gradle_content "com.test.app" "23" "33")).
Proof.
  apply (create_default_build_gradle_post bare_project "MyApp" "com.test.app" "23" "33").
  reflexivity.
Defined.

Lemma launcher_paths_agree_witness :
  Path.resolve work (nth 1 (argv (build_call work "MyApp")) "") =
  Path.resolve work (gradlew_of "MyApp").
Proof. apply (launcher_paths_agree work "MyApp"); [reflexivity|discriminate]. Defined.

Lemma chmod_names_a_nested_path_witness :
  Path.resolve work (nth 2 (argv (ls_call "MyApp")) "") =
    Some (["work"; "MyApp"] ++ ["gradlew"]) /\
  Path.resolve (Path.join work (default "" (run_cwd (chmod_call "MyApp"))))
               (nth 2 (argv (chmod_call "MyApp")) "") =
    Some (["work"; "MyApp"] ++ ["MyApp"; "gradlew"]).
Proof.
  apply (chmod_names_a_nested_path work "MyApp" ["work"; "MyApp"]).
  - exact plain_MyApp.
  - reflexivity.
Defined.

(** ** The further statements at work on the sample host *)

Lemma main_returns_iff_build_succeeded_witness :
  fst (main (host_build 0 "" true) sample_argv empty_work) = Ret tt <->
  exists c r,
    last (calls (snd (main (host_build 0 "" true) sample_argv empty_work))) =
      Some (c, Some r) /\
    is_build c = true /\ returncode r = 0%Z.
Proof.
  apply (main_returns_iff_build_succeeded (host_build 0 "" true) sample_argv empty_work).
  reflexivity.
Defined.


Lemma main_reports_package_witness :
  fst (main (host_build 0 "" true) sample_argv empty_work) = Ret tt /\
  exists pre,
    out (snd (main (host_build 0 "" true) sample_argv empty_work)) =
      pre ++ [build_ok_line;
              apk_built_line
                (cwd (snd (main (host_build 0 "" true) sample_argv empty_work)))
                (nth 1 sample_argv "")].
Proof.
  eapply (main_reports_package (host_build 0 "" true) sample_argv empty_work).
  - reflexivity.
  - apply surjective_pairing.
  - vm_compute. reflexivity.
  - reflexivity.
  - reflexivity.
  - vm_compute. reflexivity.
Defined.


Lemma ensure_gradlew_present_inspects_first_witness :
  exists res rest,
    calls (snd (ensure_gradlew (host "-rw-r--r--") "MyApp" (cloned "MyApp"))) =
      calls (cloned "MyApp") ++ (ls_call "MyApp", res) :: rest /\
    (rest = [] \/ exists res', rest = [(chmod_call "MyApp", res')]) /\
    ((forall r, res = Some r -> returncode r <> 0%Z) ->
     rest = [] /\
     fst (ensure_gradlew (host "-rw-r--r--") "MyApp" (cloned "MyApp")) <> Ret tt /\
     exit_code (fst (ensure_gradlew (host "-rw-r--r--") "MyApp" (cloned "MyApp"))) = 1%Z).
Proof.
  apply (ensure_gradlew_present_inspects_first (host "-rw-r--r--") "MyApp"
           (cloned "MyApp")).
  - vm_compute. reflexivity.
  - apply surjective_pairing.
Defined.



Lemma colored_unknown_color_witness :
  colored "hello" "blue" = colors_at "reset" +:+ "hello" +:+ colors_at "reset".
Proof. apply (colored_unknown_color "hello" "blue"); discriminate. Defined.

Lemma makedirs_makes_directory_witness :
  node_at (cwd (snd (makedirs "MyApp/app" false empty_work)))
          (fs (snd (makedirs "MyApp/app" false empty_work))) "MyApp/app" = Some Dir.
Proof.
  apply (makedirs_makes_directory "MyApp/app" false empty_work).
  reflexivity.
Defined.

Lemma substitute_idempotent_witness :
  substitute (substitute template_descriptor "com.test.app" "23" "33")
             "com.test.app" "23" "33" =
  substitute template_descriptor "com.test.app" "23" "33".
Proof.
  apply (substitute_idempotent template_descriptor "com.test.app" "23" "33").
  vm_compute. reflexivity.
Defined.



Lemma customize_project_never_exits_witness :
  fst (customize_project "MyApp" "com.test.app" "23" "33" app_is_a_file) <> Exit 1.
Proof.
  apply (customize_project_never_exits app_is_a_file "MyApp" "com.test.app" "23" "33"
           _ (snd (customize_project "MyApp" "com.test.app" "23" "33" app_is_a_file))).
  apply surjective_pairing.
Defined.


Lemma ensure_gradlew_generates_then_inspects_witness :
  exists res rest,
    calls (snd (ensure_gradlew host_wrapping "MyApp" (cloned_without_launcher "MyApp"))) =
      calls (cloned_without_launcher "MyApp") ++
      (wrapper_call "MyApp", Some done_ok) :: (ls_call "MyApp", res) :: rest /\
    (rest = [] \/ exists res', rest = [(chmod_call "MyApp", res')]).
Proof.
  apply (ensure_gradlew_generates_then_inspects host_wrapping "MyApp"
           (cloned_without_launcher "MyApp") done_ok
           (<[key_of "MyApp" ++ ["gradlew"] := File "#!/bin/sh"]>
              (fs (cloned_without_launcher "MyApp")))
           (fst (ensure_gradlew host_wrapping "MyApp" (cloned_without_launcher "MyApp")))).
  - vm_compute. reflexivity.
  - reflexivity.
  - reflexivity.
  - vm_compute. reflexivity.
  - apply surjective_pairing.
Defined.
